(** * MyST-NB: the notebook-to-document-tree renderer

    A shallow embedding of [myst_nb/docutils_.py] (class
    [DocutilsNbRenderer]) and of the cell loop of [myst_nb/parser.py]
    ([NotebookParser.parse]), with the properties of the rendering that the
    specification states.

    Notebook content is dynamically typed JSON: it is embedded as a type of
    Python values, with the exceptions that the operations of the source
    raise on ill-typed values written out.  Rendering appends nodes to the
    current node of the document: it is embedded in a writer monad with
    exceptions. *)

From Stdlib Require Import ZArith Ascii String.
From stdpp Require Import gmap strings list fin_maps.

Set Warnings "-register-all".

Local Open Scope Z_scope.
Local Open Scope string_scope.
Local Open Scope list_scope.

(** ** Python values *)

(** The values of a notebook: JSON as [nbformat] reads it.  A Python [dict]
    with string keys is a finite map, and a string is a sequence of
    one-byte characters.  Floating point numbers do not occur in what the
    renderer inspects and are left out. *)
Inductive pyval :=
  | VNone
  | VBool (b : bool)
  | VInt (z : Z)
  | VStr (s : string)
  | VList (l : list pyval)
  | VDict (d : gmap string pyval).

(** A [NotebookNode], or any [dict] keyed by strings. *)
Abbreviation pydict := (gmap string pyval).

(** The exceptions the renderer can meet. *)
Inductive exn :=
  | KeyError (key : string)
  | AttributeError (attr : string)
  | TypeError
  | IndexError.

(** A computation that returns or raises. *)
Definition result (A : Type) : Type := exn + A.

Definition rbind {A B} (m : result A) (f : A → result B) : result B :=
  match m with
  | inl e => inl e
  | inr a => f a
  end.

Declare Scope py_scope.
Delimit Scope py_scope with py.
Notation "x <~ m ;; k" := (rbind m (fun x => k))
  (at level 100, m at next level, right associativity) : py_scope.
Local Open Scope py_scope.

(** [bool(v)]: the truth value of an object. *)
Definition truthy (v : pyval) : bool :=
  match v with
  | VNone => false
  | VBool b => b
  | VInt z => negb (Z.eqb z 0)
  | VStr s => negb (String.eqb s "")
  | VList l => match l with [] => false | _ => true end
  | VDict d => negb (Nat.eqb (size d) 0)
  end.

(** [v == s] for a string literal [s]. *)
Definition eq_str (v : pyval) (s : string) : bool :=
  match v with
  | VStr t => String.eqb t s
  | _ => false
  end.

(** [s in t] for two strings: [s] occurs in [t]. *)
Definition is_substring (s t : string) : bool :=
  match Stdlib.Strings.String.index 0%nat s t with
  | Some _ => true
  | None => false
  end.

(** [s in v] for a string [s]: membership in a list, key of a dict,
    substring of a string; other values are not containers. *)
Definition str_in (s : string) (v : pyval) : result bool :=
  match v with
  | VList l => inr (existsb (fun x => eq_str x s) l)
  | VDict d => inr (bool_decide (is_Some (d !! s)))
  | VStr t => inr (is_substring s t)
  | _ => inl TypeError
  end.

(** [d.get(k, default)] on a dict. *)
Definition dict_get (d : pydict) (k : string) (default : pyval) : pyval :=
  match d !! k with
  | Some v => v
  | None => default
  end.

(** [d[k]] on a dict. *)
Definition dict_getitem (d : pydict) (k : string) : result pyval :=
  match d !! k with
  | Some v => inr v
  | None => inl (KeyError k)
  end.

(** [node.attr] on a [NotebookNode]: attribute access reads the key. *)
Definition node_getattr (d : pydict) (attr : string) : result pyval :=
  match d !! attr with
  | Some v => inr v
  | None => inl (AttributeError attr)
  end.

(** [v[k]] for a string [k]: only a dict can be indexed by a string. *)
Definition getitem_str (v : pyval) (k : string) : result pyval :=
  match v with
  | VDict d => dict_getitem d k
  | _ => inl TypeError
  end.

(** [for x in v]: the elements of a list, the characters of a string, the
    keys of a dict (in the key order of the finite map: the insertion order
    of a Python dict is not recorded); other values are not iterable. *)
Definition py_iter (v : pyval) : result (list pyval) :=
  match v with
  | VList l => inr l
  | VStr s => inr (map (fun c => VStr (String c EmptyString)) (list_ascii_of_string s))
  | VDict d => inr (map (fun kv => VStr (fst kv)) (map_to_list d))
  | _ => inl TypeError
  end.

(** [len(v)]. *)
Definition py_len (v : pyval) : result nat :=
  match v with
  | VList l => inr (length l)
  | VStr s => inr (String.length s)
  | VDict d => inr (size d)
  | _ => inl TypeError
  end.

(** [s.replace(old, new)] for one-character [old] and [new]. *)
Fixpoint replace_char (old new : ascii) (s : string) : string :=
  match s with
  | EmptyString => EmptyString
  | String c rest =>
      String (if Ascii.eqb c old then new else c) (replace_char old new rest)
  end.

(** ** The document tree *)

(** A docutils node: its class name, its attributes, the source location
    stamped on it, and its children. *)
Inductive node := Node {
  tagname : string;
  attributes : pydict;
  line : option Z;
  source : option string;
  children : list node }.

(** ** Rendering: a writer monad with exceptions

    A render method appends nodes to [self.current_node] and may raise.  A
    computation either raises or returns a value together with the nodes it
    appended, in order. *)
Definition M (A : Type) : Type := result (A * list node).

Definition ret {A} (a : A) : M A := inr (a, []).

Definition bind {A B} (m : M A) (f : A → M B) : M B :=
  match m with
  | inl e => inl e
  | inr (a, ns) =>
      match f a with
      | inl e => inl e
      | inr (b, ns') => inr (b, ns ++ ns')
      end
  end.

(** A computation without effect on the tree. *)
Definition lift {A} (r : result A) : M A :=
  match r with
  | inl e => inl e
  | inr a => inr (a, [])
  end.

(** [self.current_node.extend(nodes)] and [self.current_node.append(node)]. *)
Definition extend (ns : list node) : M unit := inr (tt, ns).
Definition append (n : node) : M unit := extend [n].

Notation "x <- m ;; k" := (bind m (fun x => k))
  (at level 100, m at next level, right associativity) : py_scope.
Notation "m ;;; k" := (bind m (fun _ => k))
  (at level 100, right associativity) : py_scope.

(** [with self.current_node_context(container, append=True): body]: the
    container is appended to the current node and is the current node while
    [body] runs. *)
Definition current_node_context (container : node) (body : M unit) : M unit :=
  match body with
  | inl e => inl e
  | inr (_, ns) =>
      append (Node (tagname container) (attributes container) (line container)
                (source container) (children container ++ ns))
  end.

(** [for i, x in enumerate(xs, start): body]. *)
Fixpoint for_enumerate {A} (body : nat → A → M unit) (start : nat) (xs : list A)
  : M unit :=
  match xs with
  | [] => ret tt
  | x :: rest => body start x ;;; for_enumerate body (S start) rest
  end.

(** [for x in xs: body]. *)
Definition for_each {A} (body : A → M unit) (xs : list A) : M unit :=
  for_enumerate (fun _ => body) 0%nat xs.

(** ** Configuration *)

(** [NbParserConfig]: the key of the cell-level render configuration in the
    metadata of a cell, and the notebook-level values of the options. *)
Record NbParserConfig := {
  cell_render_key : string;
  config_values : pydict }.

(** Modelled from the spec: [NbParserConfig.__getitem__] ([myst_nb.core.config]
    is not among the sources).  The notebook-level value of an option, or a
    failure when the option is undefined there. *)
Definition nb_config_getitem (cfg : NbParserConfig) (k : string) : result pyval :=
  match config_values cfg !! k with
  | Some v => inr v
  | None => inl (KeyError k)
  end.

(** [DocutilsNbRenderer.get_cell_render_config]. *)
Definition get_cell_render_config (nb_config : NbParserConfig)
    (cell_metadata : pydict) (key : string) (nb_key : option string)
    (has_nb_key : bool) : result pyval :=
  let cell_metadata_key := cell_render_key nb_config in
  let use_nb_level :=
    match cell_metadata !! cell_metadata_key with
    | Some (VDict d) =>
        if bool_decide (is_Some (d !! key)) then false else true
    | Some _ => true
    | None => true
    end in
  if use_nb_level then
    if negb has_nb_key then inl (KeyError key)
    else nb_config_getitem nb_config
           (match nb_key with Some k => k | None => key end)
  else
    sub <~ dict_getitem cell_metadata cell_metadata_key ;;
    getitem_str sub key.

(** The notebook-level key of a lookup: [nb_key if nb_key is not None else
    key]. *)
Definition notebook_key (key : string) (nb_key : option string) : string :=
  match nb_key with
  | Some k => k
  | None => key
  end.

(** ** Tokens, and the collaborators of the renderer *)

(** The token of a notebook cell, as [notebook_to_tokens] builds it:
    [token.meta] holds the index, the metadata and the execution count of
    the cell and, for a code cell, its lexer ([None] when it has none);
    [token_line] is the source line [token_line(token)] of the cell. *)
Record Token := {
  meta_index : nat;
  meta_metadata : pydict;
  meta_execution_count : pyval;
  meta_lexer : pyval;
  content : string;
  token_line : Z }.

(** The [MimeData] handed to the element renderer. *)
Module MimeData.
Record t := {
  mime_type : string;
  content : pyval;
  cell_metadata : pydict;
  output_metadata : pyval;
  cell_index : nat;
  output_index : nat;
  line : Z }.
End MimeData.

(** The element renderer ([NbElementRenderer], loaded from an entry point):
    each hook turns a typed payload into a sequence of nodes. *)
Class NbElementRenderer := {
  render_stdout : pydict → pydict → nat → Z → list node;
  render_stderr : pydict → pydict → nat → Z → list node;
  render_error : pydict → pydict → nat → Z → list node;
  render_raw_cell : string → pydict → nat → Z → list node;
  render_mime_type : MimeData.t → list node }.

(** What the renderers use of the markdown parser of the host
    ([myst_parser]), of the language and of the loggers: the highlighted
    block of a source text, the rendering of the children of a markdown
    token, the block tokens [tokenize(source.splitlines(keepends=True))] of
    a markdown source and their rendering, [str(v)] of a value that is not a
    string, and the constant [DEFAULT_LOG_TYPE] of [myst_nb.core.loggers],
    which is not among the sources. *)
Class HostRenderer := {
  create_highlighted_code_block : string → pyval → pyval → string → Z → node;
  render_children : Token → M unit;
  block_token : Type;
  tokenize : string → list block_token;
  render : block_token → M unit;
  py_str : pyval → string;
  DEFAULT_LOG_TYPE : string }.

(** The renderer object: [self.nb_config], the cells of
    [self.md_options["notebook"]], [self.document["source"]], and the
    priority list [get_mime_priority(builder_name, mime_priority_overrides)]
    that the configuration resolves to. *)
Record DocutilsNbRenderer := {
  nb_config : NbParserConfig;
  notebook_cells : list pydict;
  document_source : string;
  mime_priority : list string }.

(** The value interpolated in an f-string. *)
Definition format_value `{HostRenderer} (v : pyval) : string :=
  match v with
  | VStr s => s
  | _ => py_str v
  end.

Section Renderer.
Context `{!NbElementRenderer} `{!HostRenderer}.
Variable self : DocutilsNbRenderer.

(** [add_line_and_source_path]: the line of the token and the path of the
    document are copied to the node. *)
Definition add_line_and_source_path (n : node) (token : Token) : node :=
  Node (tagname n) (attributes n) (Some (token_line token))
    (Some (document_source self)) (children n).

(** [add_line_and_source_path_r]: the same for each node of a sequence and
    all its descendants; [stamp_r] does it for one node. *)
Fixpoint stamp_r (token : Token) (n : node) : node :=
  Node (tagname n) (attributes n) (Some (token_line token))
    (Some (document_source self)) (List.map (stamp_r token) (children n)).

Definition add_line_and_source_path_r (ns : list node) (token : Token)
  : list node :=
  List.map (stamp_r token) ns.

(** [create_warning(message, line=, append_to=self.current_node, wtype=,
    subtype=)]: one [system_message] node is appended to the current
    node. *)
Definition warning_node (message : string) (ln : Z) (wtype subtype : string)
  : node :=
  Node "system_message"
    (<["level" := VInt 2]> (<["type" := VStr "WARNING"]>
      (<["message" := VStr message]> (<["wtype" := VStr wtype]>
        (<["subtype" := VStr subtype]> ∅)))))
    (Some ln) None [].

Definition create_warning (message : string) (ln : Z) (wtype subtype : string)
  : M unit :=
  append (warning_node message ln wtype subtype).

(** [nodes.container] with the given attributes and classes. *)
Definition container (attrs : pydict) (classes : list string) : node :=
  Node "container" (<["classes" := VList (List.map VStr classes)]> attrs)
    None None [].

(** Modelled from the spec: [create_figure_context] ([myst_nb.core.render]
    is not among the sources).  The nodes rendered in the context are
    wrapped in a figure when the configuration supplies figure options (a
    mapping with caption, alignment, name), and are appended as they are
    otherwise. *)
Definition create_figure_context (figure_options : pyval) (ln : Z)
    (body : M unit) : M unit :=
  match figure_options with
  | VDict options =>
      current_node_context (Node "figure" options (Some ln) None []) body
  | _ => body
  end.

(** [self.md_options["notebook"]["cells"][cell_index].get("outputs", [])]. *)
Definition cell_outputs (cell_index : nat) : result pyval :=
  match notebook_cells self !! cell_index with
  | Some cell => inr (dict_get cell "outputs" (VList []))
  | None => inl IndexError
  end.

(** [next(x for x in mime_priority if x in output["data"])]: [None] stands
    for [StopIteration]; [output["data"]] is evaluated for each entry that
    is tried. *)
Fixpoint next_mime_type (output : pydict) (priority : list string)
  : result (option string) :=
  match priority with
  | [] => inr None
  | x :: rest =>
      data <~ dict_getitem output "data" ;;
      found <~ str_in x data ;;
      if (found : bool) then inr (Some x) else next_mime_type output rest
  end.

(** [with suppress(KeyError): figure_options = ...]. *)
Definition suppress_KeyError (default : pyval) (r : result pyval)
  : result pyval :=
  match r with
  | inl (KeyError _) => inr default
  | _ => r
  end.

(** The body of the loop of [render_nb_cell_code_outputs]. *)
Definition render_output (token : Token) (output_index : nat)
    (output : pyval) : M unit :=
  let cell_index := meta_index token in
  let metadata := meta_metadata token in
  let line := token_line token in
  match output with
  | VDict output =>
      output_type <- lift (node_getattr output "output_type") ;;
      if eq_str output_type "stream" then
        name <- lift (node_getattr output "name") ;;
        if eq_str name "stdout" then
          extend (add_line_and_source_path_r
                    (render_stdout output metadata cell_index line) token)
        else if eq_str name "stderr" then
          extend (add_line_and_source_path_r
                    (render_stderr output metadata cell_index line) token)
        else ret tt
      else if eq_str output_type "error" then
        extend (add_line_and_source_path_r
                  (render_error output metadata cell_index line) token)
      else if eq_str output_type "display_data"
              || eq_str output_type "execute_result" then
        selected <- lift (next_mime_type output (mime_priority self)) ;;
        match selected with
        | None =>
            create_warning "No output mime type found from render_priority"
              line DEFAULT_LOG_TYPE "mime_type"
        | Some mime_type =>
            figure_options <- lift (suppress_KeyError VNone
              (get_cell_render_config (nb_config self) metadata "figure"
                 None false)) ;;
            create_figure_context figure_options line (
              data <- lift (dict_getitem output "data") ;;
              payload <- lift (getitem_str data mime_type) ;;
              extend (add_line_and_source_path_r
                (render_mime_type
                   {| MimeData.mime_type := mime_type;
                      MimeData.content := payload;
                      MimeData.cell_metadata := metadata;
                      MimeData.output_metadata :=
                        dict_get output "metadata" (VDict ∅);
                      MimeData.cell_index := cell_index;
                      MimeData.output_index := output_index;
                      MimeData.line := line |}) token))
        end
      else
        create_warning
          ("Unsupported output type: " +:+ format_value output_type)
          line DEFAULT_LOG_TYPE "output_type"
  | _ => inl (AttributeError "output_type")
  end.

(** [render_nb_cell_code_outputs]. *)
Definition render_nb_cell_code_outputs (token : Token) : M unit :=
  outputs <- lift (cell_outputs (meta_index token)) ;;
  outputs <- lift (py_iter outputs) ;;
  for_enumerate (render_output token) 0%nat outputs.

(** [render_nb_cell_code_source]. *)
Definition render_nb_cell_code_source (token : Token) : M unit :=
  let lexer := meta_lexer token in
  number_lines <- lift (get_cell_render_config (nb_config self)
                          (meta_metadata token) "number_source_lines"
                          None true) ;;
  let node := create_highlighted_code_block (content token) lexer
                number_lines (document_source self) (token_line token) in
  append (add_line_and_source_path node token).

(** [tags = token.meta["metadata"].get("tags", [])]. *)
Definition cell_tags (metadata : pydict) : pyval :=
  dict_get metadata "tags" (VList []).

(** The [remove_input] of [render_nb_cell_code], from the metadata
    [token.meta["metadata"]] of the cell: an [or] of the cell-level option
    and of the two spellings of the tag, evaluated left to right until one
    operand is true.  The renderer only tests the result for truth, so its
    truth value is what is kept. *)
Definition remove_input (metadata : pydict) : result bool :=
  let tags := cell_tags metadata in
  flag <~ get_cell_render_config (nb_config self) metadata
            "remove_code_source" None true ;;
  if truthy flag then inr true
  else
    found <~ str_in "remove_input" tags ;;
    if (found : bool) then inr true else str_in "remove-input" tags.

(** The [remove_output] of [render_nb_cell_code]. *)
Definition remove_output (metadata : pydict) : result bool :=
  let tags := cell_tags metadata in
  flag <~ get_cell_render_config (nb_config self) metadata
            "remove_code_outputs" None true ;;
  if truthy flag then inr true
  else
    found <~ str_in "remove_output" tags ;;
    if (found : bool) then inr true else str_in "remove-output" tags.

(** [for tag in tags: classes.append(f"tag_{tag.replace(' ', '_')}")]:
    only a string has a [replace] method. *)
Fixpoint tag_classes (tags : list pyval) : result (list string) :=
  match tags with
  | [] => inr []
  | VStr tag :: rest =>
      classes <~ tag_classes rest ;;
      inr (("tag_" +:+ replace_char " " "_" tag) :: classes)
  | _ :: _ => inl (AttributeError "replace")
  end.

(** [render_nb_cell_code]. *)
Definition render_nb_cell_code (token : Token) : M unit :=
  let cell_index := meta_index token in
  let tags := cell_tags (meta_metadata token) in
  remove_input <- lift (remove_input (meta_metadata token)) ;;
  remove_output <- lift (remove_output (meta_metadata token)) ;;
  if remove_input && remove_output then ret tt
  else
    tags <- lift (py_iter tags) ;;
    tag_classes <- lift (tag_classes tags) ;;
    let classes := "cell" :: tag_classes in
    let cell_container :=
      add_line_and_source_path
        (container
           (<["nb_element" := VStr "cell_code"]>
             (<["cell_index" := VInt (Z.of_nat cell_index)]>
               (<["exec_count" := meta_execution_count token]>
                 (<["cell_metadata" := VDict (meta_metadata token)]> ∅))))
           classes) token in
    current_node_context cell_container (
      (if negb remove_input then
         let cell_input :=
           add_line_and_source_path
             (container (<["nb_element" := VStr "cell_code_source"]> ∅)
                ["cell_input"]) token in
         current_node_context cell_input (render_nb_cell_code_source token)
       else ret tt) ;;;
      has_outputs <- lift (cell_outputs cell_index) ;;
      if negb remove_output && truthy has_outputs then
        let cell_output :=
          add_line_and_source_path
            (container (<["nb_element" := VStr "cell_code_output"]> ∅)
               ["cell_output"]) token in
        current_node_context cell_output (render_nb_cell_code_outputs token)
      else ret tt).

(** [render_nb_cell_markdown]: a pass-through. *)
Definition render_nb_cell_markdown (token : Token) : M unit :=
  render_children token.

(** [render_nb_cell_raw]. *)
Definition render_nb_cell_raw (token : Token) : M unit :=
  let line := token_line token in
  extend (add_line_and_source_path_r
            (render_raw_cell (content token) (meta_metadata token)
               (meta_index token) line) token).
End Renderer.

(** ** The cell loop of [NotebookParser.parse] *)

(** [s.endswith("\n")]. *)
Fixpoint endswith_newline (s : string) : bool :=
  match s with
  | EmptyString => false
  | String c EmptyString => Ascii.eqb c "010"
  | String _ rest => endswith_newline rest
  end.

Section NotebookParser.
Context `{!HostRenderer}.

(** [cell.metadata.get("tags", [])]. *)
Definition metadata_tags (cell : pydict) : result pyval :=
  metadata <~ node_getattr cell "metadata" ;;
  match metadata with
  | VDict metadata => inr (dict_get metadata "tags" (VList []))
  | _ => inl (AttributeError "get")
  end.

(** The body of the loop over [ntbk.cells]. *)
Definition parse_cell (cell : pydict) : M unit :=
  source <- lift (dict_getitem cell "source") ;;
  len <- lift (py_len source) ;;
  (* Skip empty cells *)
  if Nat.eqb len 0 then ret tt
  else
    tags <- lift (metadata_tags cell) ;;
    tags <- lift (py_iter tags) ;;
    let classes :=
      "cell" :: List.map (fun tag => "tag_" +:+ format_value tag) tags in
    cell_type <- lift (dict_getitem cell "cell_type") ;;
    if eq_str cell_type "markdown" then
      match source with
      | VStr source =>
          let source :=
            if endswith_newline source then source
            else source +:+ String "010" EmptyString in
          let myst_ast := tokenize source in
          tags <- lift (metadata_tags cell) ;;
          hide_input <- lift (str_in "hide_input" tags) ;;
          if (hide_input : bool) then
            current_node_context (container ∅ ["toggle"])
              (for_each render myst_ast)
          else for_each render myst_ast
      | _ => inl (AttributeError "endswith")
      end
    else if eq_str cell_type "code" then
      outputs <- lift (dict_getitem cell "outputs") ;;
      let code_block :=
        Node "literal_block" (<["text" := source]> ∅) None None [] in
      let cell_input :=
        Node "CellInputNode"
          (<["classes" := VList [VStr "cell_input"]]> ∅) None None
          [code_block] in
      let bundle :=
        Node "CellOutputBundleNode" (<["outputs" := outputs]> ∅) None None
          [] in
      let cell_output :=
        Node "CellOutputNode"
          (<["classes" := VList [VStr "cell_output"]]> ∅) None None
          [bundle] in
      append (Node "CellNode"
                (<["classes" := VList (List.map VStr classes)]>
                  (<["cell_type" := cell_type]> ∅)) None None
                [cell_input; cell_output])
    else ret tt.

(** [for cell in ntbk.cells: ...]. *)
Definition parse_cells (cells : list pydict) : M unit :=
  for_each parse_cell cells.
End NotebookParser.

(** ** The notebook metadata: [render_nb_metadata] *)

(** What [render_nb_metadata] uses of the element renderer and of the host:
    the hook [self.nb_renderer.render_nb_metadata], which returns the
    metadata that are left to render, and [render_front_matter], which
    renders the content of a front-matter token. *)
Class MetadataRenderer := {
  nb_renderer_render_nb_metadata : pydict → pydict;
  render_front_matter : pydict → M unit }.

(** [special_keys] of [render_nb_metadata]. *)
Definition special_keys : list string :=
  ["kernelspec"; "language_info"; "source_map"].

(** [for key in special_keys: if key in metadata:
    self.document[f"nb_{key}"] = metadata.get(key)], on the attributes of
    the document. *)
Definition save_special_keys (metadata document : pydict) : pydict :=
  foldl (fun document key =>
           match metadata !! key with
           | Some value => <["nb_" +:+ key := value]> document
           | None => document
           end) document special_keys.

(** [render_nb_metadata]: the metadata [token.meta] of the notebook and the
    attributes of the document give the attributes of the document
    afterwards and the rendering of the front matter; [metadata_to_fm] is
    [self.nb_config.metadata_to_fm]. *)
Definition render_nb_metadata `{!MetadataRenderer} (metadata_to_fm : bool)
    (token_meta document : pydict) : pydict * M unit :=
  let document := save_special_keys token_meta document in
  let metadata := nb_renderer_render_nb_metadata token_meta in
  (document,
   if metadata_to_fm then
     let top_matter :=
       filter (fun kv => kv.1 ∉ special_keys) metadata in
     render_front_matter top_matter
   else ret tt).

(** ** Registration of directives and roles: [Parser.parse] *)

(** The registries [_directives] and [_roles] of docutils. *)
Record Registries (directive role : Type) := {
  directives : gmap string directive;
  roles : gmap string role }.
Arguments directives {_ _} _.
Arguments roles {_ _} _.

(** What [Parser.parse] works with: the glue directives and roles, the
    directive [UnexpectedCellDirective], and [Parser._parse], which runs on
    the registries, may change them, and returns or raises. *)
Class ParserEnvironment := {
  directive : Type;
  role : Type;
  document : Type;
  get_glue_directives : gmap string directive;
  get_glue_roles : gmap string role;
  UnexpectedCellDirective : directive;
  _parse : string → document → Registries directive role →
           Registries directive role * result unit }.

(** [for name, x in new.items(): registry[name] = x]. *)
Definition register_all {A} (new registry : gmap string A) : gmap string A :=
  map_fold (fun name x registry => <[name := x]> registry) registry new.

(** [for name in new: registry.pop(name, None)]. *)
Definition unregister_all {A} (new registry : gmap string A) : gmap string A :=
  map_fold (fun name _ registry => delete name registry) registry new.

(** The [new_directives] of [Parser.parse]. *)
Definition new_directives `{!ParserEnvironment} : gmap string directive :=
  <["raw-cell" := UnexpectedCellDirective]>
    (<["code-cell" := UnexpectedCellDirective]> get_glue_directives).

(** The registries in which [Parser.parse] runs [_parse]. *)
Definition registered `{!ParserEnvironment}
    (registries : Registries directive role) : Registries directive role :=
  {| directives := register_all new_directives (directives registries);
     roles := register_all get_glue_roles (roles registries) |}.

(** [Parser.parse]: the directives and roles are registered, [_parse] runs,
    and they are removed again whether it returned or raised; the outcome is
    the outcome of [_parse]. *)
Definition parse `{!ParserEnvironment} (inputstring : string)
    (doc : document) (registries : Registries directive role)
  : Registries directive role * result unit :=
  let new_roles := get_glue_roles in
  let '(after, outcome) := _parse inputstring doc (registered registries) in
  ({| directives := unregister_all new_directives (directives after);
      roles := unregister_all new_roles (roles after) |},
   outcome).

(** ** Notions that the properties are about *)

(** An output of the kinds that carry a MIME bundle. *)
Definition is_display (output : pydict) : Prop :=
  output !! "output_type" = Some (VStr "display_data")
  ∨ output !! "output_type" = Some (VStr "execute_result").

(** The warning of a bundle without a renderable MIME type. *)
Definition mime_type_warning `{!HostRenderer} (token : Token) : node :=
  warning_node "No output mime type found from render_priority"
    (token_line token) DEFAULT_LOG_TYPE "mime_type".

(** The warning of an output of an unknown kind. *)
Definition output_type_warning `{!HostRenderer} (token : Token)
    (output_type : pyval) : node :=
  warning_node ("Unsupported output type: " +:+ format_value output_type)
    (token_line token) DEFAULT_LOG_TYPE "output_type".

(** The [MimeData] of an output of a cell for a selected MIME type and its
    payload. *)
Definition mime_data (token : Token) (output : pydict) (output_index : nat)
    (mime_type : string) (payload : pyval) : MimeData.t :=
  {| MimeData.mime_type := mime_type;
     MimeData.content := payload;
     MimeData.cell_metadata := meta_metadata token;
     MimeData.output_metadata := dict_get output "metadata" (VDict ∅);
     MimeData.cell_index := meta_index token;
     MimeData.output_index := output_index;
     MimeData.line := token_line token |}.

(** The rule of the specification for the cell loop: a cell for which the
    loop appends nothing is a code cell whose source and outputs are both
    removed. *)
Definition skips_only_removed_cells `{!HostRenderer}
    (self : DocutilsNbRenderer) (cells : list pydict) : Prop :=
  ∀ k (cell metadata : pydict),
    cells !! k = Some cell →
    cell !! "metadata" = Some (VDict metadata) →
    parse_cell cell = inr (tt, []) →
    cell !! "cell_type" = Some (VStr "code")
    ∧ remove_input self metadata = inr true
    ∧ remove_output self metadata = inr true.

(** The nodes a computation appended ([[]] when it raised). *)
Definition appended (m : M unit) : list node :=
  match m with
  | inl _ => []
  | inr (_, ns) => ns
  end.

(** The tag names of the nodes a computation appended. *)
Definition appended_tags (m : M unit) : result (list string) :=
  match m with
  | inl e => inl e
  | inr (_, ns) => inr (List.map tagname ns)
  end.

(** The class of a tag in [render_nb_cell_code]. *)
Definition tag_class (tag : string) : string :=
  "tag_" +:+ replace_char " " "_" tag.

(** The characters of a string. *)
Definition characters (s : string) : list ascii := list_ascii_of_string s.

(** A value in which [in] cannot search: neither a list, nor a dict, nor a
    string. *)
Definition not_a_container (v : pyval) : Prop :=
  match v with
  | VList _ | VDict _ | VStr _ => False
  | _ => True
  end.

(** ** A concrete renderer, for examples

    An element renderer whose hooks produce one node named after the hook,
    and a host whose markdown rendering produces one paragraph per source. *)

Definition hook_node (hook : string) (attrs : pydict) : list node :=
  [Node hook attrs None None []].

#[local] Instance example_element_renderer : NbElementRenderer := {|
  render_stdout output _ _ _ := hook_node "stdout" output;
  render_stderr output _ _ _ := hook_node "stderr" output;
  render_error output _ _ _ := hook_node "error" output;
  render_raw_cell content _ _ _ :=
    hook_node "raw" (<["content" := VStr content]> ∅);
  render_mime_type data :=
    hook_node "mime"
      (<["mime_type" := VStr (MimeData.mime_type data)]>
        (<["content" := MimeData.content data]>
          (<["output_index" :=
               VInt (Z.of_nat (MimeData.output_index data))]> ∅)))
|}.

#[local] Instance example_host_renderer : HostRenderer := {|
  create_highlighted_code_block text lexer number_lines source line :=
    Node "literal_block" (<["text" := VStr text]> ∅) None None [];
  render_children token :=
    append (Node "paragraph" (<["text" := VStr (content token)]> ∅)
              None None []);
  block_token := string;
  tokenize source := [source];
  render source :=
    append (Node "paragraph" (<["text" := VStr source]> ∅) None None []);
  py_str _ := "<object>";
  DEFAULT_LOG_TYPE := "mystnb"
|}.

(** The default values of the options the renderer reads. *)
Definition example_config : NbParserConfig := {|
  cell_render_key := "mystnb";
  config_values :=
    <["remove_code_source" := VBool false]>
      (<["remove_code_outputs" := VBool false]>
        (<["number_source_lines" := VBool false]> ∅)) |}.

Definition example_priority : list string :=
  ["text/html"; "image/png"; "text/plain"].

Definition stream_output (name text : string) : pyval :=
  VDict (<["output_type" := VStr "stream"]>
          (<["name" := VStr name]> (<["text" := VStr text]> ∅))).

Definition code_cell (source : string) (metadata : pydict)
    (outputs : list pyval) : pydict :=
  <["cell_type" := VStr "code"]>
    (<["source" := VStr source]>
      (<["metadata" := VDict metadata]>
        (<["outputs" := VList outputs]> ∅))).

Definition example_renderer (cells : list pydict) : DocutilsNbRenderer := {|
  nb_config := example_config;
  notebook_cells := cells;
  document_source := "notebook.ipynb";
  mime_priority := example_priority |}.

Definition code_token (index : nat) (metadata : pydict) (source : string)
  : Token := {|
  meta_index := index;
  meta_metadata := metadata;
  meta_execution_count := VInt 1;
  meta_lexer := VStr "ipython3";
  content := source;
  token_line := 7 |}.

(** A bundle with a plain text and a PNG representation, and one with a
    LaTeX representation only, which the example priority does not list. *)
Definition png_bundle : pydict :=
  <["text/plain" := VStr "42"]> (<["image/png" := VStr "iVBORw0KGgo="]> ∅).

Definition latex_bundle : pydict := <["text/latex" := VStr "$x$"]> ∅.

Definition bundle_output (output_type : string) (data : pydict) : pydict :=
  <["output_type" := VStr output_type]>
    (<["data" := VDict data]> (<["metadata" := VDict ∅]> ∅)).

(** The metadata of a cell that numbers its source lines, and of a cell
    whose render configuration is not a mapping. *)
Definition numbered_metadata : pydict :=
  <["mystnb" := VDict (<["number_source_lines" := VBool true]> ∅)]> ∅.

Definition malformed_metadata : pydict :=
  <["mystnb" := VStr "remove_code_source"]> ∅.

(** A cell with a bundle that cannot be rendered between two streams. *)
Definition latex_cell : pydict :=
  code_cell "display(x)" ∅
    [stream_output "stdout" "before";
     VDict (bundle_output "display_data" latex_bundle);
     stream_output "stderr" "after"].

(** A cell with an output of a type the renderer does not know, followed by
    a result. *)
Definition update_output : pydict :=
  <["output_type" := VStr "update_display_data"]>
    (<["data" := VDict png_bundle]> ∅).

Definition update_cell : pydict :=
  code_cell "h.update(x)" ∅
    [VDict update_output; VDict (bundle_output "execute_result" png_bundle)].

Definition stdlog_output : pydict :=
  <["output_type" := VStr "stream"]>
    (<["name" := VStr "stdlog"]> (<["text" := VStr "dropped"]> ∅)).

(** A renderer whose notebook level defines figure options, which a cell
    without figure options does not get. *)
Definition figure_renderer : DocutilsNbRenderer := {|
  nb_config := {|
    cell_render_key := "mystnb";
    config_values :=
      <["figure" := VDict (<["caption" := VStr "A figure"]> ∅)]>
        (config_values example_config) |};
  notebook_cells := [];
  document_source := "notebook.ipynb";
  mime_priority := example_priority |}.

(** A cell tagged with the hyphenated spelling for the source and with the
    other spelling for the outputs, under a configuration that removes
    neither. *)
Definition hidden_metadata : pydict :=
  <["tags" := VList [VStr "remove-input"; VStr "remove_output"]]> ∅.

(** A code cell without source, without tags and without outputs. *)
Definition empty_cell : pydict := code_cell "" ∅ [].

(** A notebook of a first cell with a result, an empty cell, and a cell with
    a bundle that cannot be rendered between two streams. *)
Definition result_cell : pydict :=
  code_cell "6*7" ∅ [VDict (bundle_output "execute_result" png_bundle)].

Definition example_notebook : list pydict :=
  [result_cell; empty_cell; latex_cell].

(** A metadata renderer that leaves the metadata as they are and renders
    the front matter to one node that holds it. *)
#[local] Instance example_metadata_renderer : MetadataRenderer := {|
  nb_renderer_render_nb_metadata metadata := metadata;
  render_front_matter content :=
    append (Node "docinfo" content None None [])
|}.

(** The metadata of a notebook with a kernel and an author. *)
Definition example_notebook_metadata : pydict :=
  <["kernelspec" := VDict (<["name" := VStr "python3"]> ∅)]>
    (<["author" := VStr "Ada"]> ∅).

(** A parser environment: directives and roles are named by strings, the
    glue directives claim the name [code-cell], and [_parse] loads the
    directive [note] and fails on an empty input. *)
#[local] Instance example_parser_environment : ParserEnvironment := {|
  directive := string;
  role := string;
  document := unit;
  get_glue_directives :=
    <["glue" := "PasteAny"]> (<["code-cell" := "GlueCell"]> ∅);
  get_glue_roles := <["glue" := "PasteRole"]> ∅;
  UnexpectedCellDirective := "UnexpectedCellDirective";
  _parse inputstring _ registries :=
    ({| directives := <["note" := "Note"]> (directives registries);
        roles := roles registries |},
     if String.eqb inputstring "" then inl (KeyError "nbformat")
     else inr tt)
|}.

(** Registries in which another [code-cell] directive and a [math] role are
    registered already. *)
Definition example_registries : Registries directive role := {|
  directives := <["code-cell" := "SphinxCodeCell"]> ∅;
  roles := <["math" := "Math"]> ∅ |}.

(** Metadata whose tags are not a list, with the source removed at cell
    level. *)
Definition untagged_metadata : pydict :=
  <["tags" := VNone]>
    (<["mystnb" := VDict (<["remove_code_source" := VBool true]> ∅)]> ∅).

(** A renderer whose notebook level defines no option. *)
Definition bare_renderer (cells : list pydict) : DocutilsNbRenderer := {|
  nb_config := {| cell_render_key := "mystnb"; config_values := ∅ |};
  notebook_cells := cells;
  document_source := "notebook.ipynb";
  mime_priority := example_priority |}.

(** The metadata of a cell with a tag of two words, and of a cell whose
    source is removed by a tag. *)
Definition tagged_metadata : pydict :=
  <["tags" := VList [VStr "hide input"]]> ∅.

Definition input_removed_metadata : pydict :=
  <["tags" := VList [VStr "remove-input"]]> ∅.

(** A display output without a bundle, and a cell in which it stands
    between two streams. *)
Definition bare_display_output : pydict :=
  <["output_type" := VStr "display_data"]> ∅.


(** A renderer with an empty priority list. *)
Definition unprioritised_renderer : DocutilsNbRenderer := {|
  nb_config := example_config;
  notebook_cells := [];
  document_source := "notebook.ipynb";
  mime_priority := [] |}.

(** Cells of the other kinds: a raw cell, and a markdown cell that is
    tagged to be hidden and whose source ends without a newline. *)
Definition raw_cell : pydict :=
  <["cell_type" := VStr "raw"]>
    (<["source" := VStr "<hr>"]> (<["metadata" := VDict ∅]> ∅)).


(** A code cell without source. *)
Definition sourceless_cell : pydict :=
  <["cell_type" := VStr "code"]> (<["metadata" := VDict ∅]> ∅).

(** A code cell that has no [outputs]. *)
Definition outputless_cell : pydict :=
  <["cell_type" := VStr "code"]>
    (<["source" := VStr "x = 1"]> (<["metadata" := VDict ∅]> ∅)).

(** * Properties *)

Local Open Scope nat_scope.

(** ** The model on examples *)

Example truthy_examples :
  truthy (VStr "") = false ∧ truthy (VStr "no") = true ∧
  truthy (VInt 0) = false ∧ truthy (VList []) = false ∧
  truthy (VDict ∅) = false ∧ truthy (VDict {[ "a" := VNone ]}) = true.
Proof. repeat split; vm_compute; reflexivity. Qed.

Example str_in_examples :
  str_in "a" (VList [VInt 1; VStr "a"]) = inr true ∧
  str_in "a" (VDict {[ "b" := VNone ]}) = inr false ∧
  str_in "ab" (VStr "cabd") = inr true ∧
  str_in "a" VNone = inl TypeError.
Proof. repeat split; vm_compute; reflexivity. Qed.

Example replace_char_example :
  replace_char " " "_" "my tag name" = "my_tag_name".
Proof. reflexivity. Qed.

Example render_code_cell_example :
  let outputs :=
    [stream_output "stdout" "hi";
     VDict (bundle_output "display_data" latex_bundle);
     stream_output "stdlog" "dropped";
     VDict (bundle_output "execute_result" png_bundle);
     VDict (<["output_type" := VStr "update_display_data"]> ∅)] in
  let self := example_renderer [code_cell "6*7" ∅ outputs] in
  appended_tags (render_nb_cell_code_outputs self (code_token 0 ∅ "6*7"))
  = inr ["stdout"; "system_message"; "mime"; "system_message"].
Proof. vm_compute. reflexivity. Qed.

Example parse_example_notebook :
  appended_tags (parse_cells example_notebook) = inr ["CellNode"; "CellNode"].
Proof. vm_compute. reflexivity. Qed.

(** ** The monad *)

Lemma bind_ret_l {A B} (a : A) (f : A → M B) : bind (ret a) f = f a.
Proof. unfold bind, ret. destruct (f a) as [e | [b ns]]; reflexivity. Qed.

Lemma bind_lift_inr {A B} (a : A) (f : A → M B) : bind (lift (inr a)) f = f a.
Proof. apply bind_ret_l. Qed.

Lemma bind_lift_inl {A B} (e : exn) (f : A → M B) :
  bind (lift (inl e)) f = inl e.
Proof. reflexivity. Qed.

Lemma bind_ret_r {A} (m : M A) : bind m ret = m.
Proof.
  destruct m as [e | [a ns]]; simpl; [reflexivity |].
  by rewrite app_nil_r.
Qed.

Lemma bind_assoc {A B C} (m : M A) (f : A → M B) (g : B → M C) :
  bind (bind m f) g = bind m (fun a => bind (f a) g).
Proof.
  destruct m as [e | [a ns]]; simpl; [reflexivity |].
  destruct (f a) as [e | [b ns']]; simpl; [reflexivity |].
  destruct (g b) as [e | [c ns'']]; simpl; [reflexivity |].
  by rewrite app_assoc.
Qed.

Lemma bind_inr {A B} (m : M A) (f : A → M B) a b ns ns' :
  m = inr (a, ns) → f a = inr (b, ns') → bind m f = inr (b, ns ++ ns').
Proof. intros -> Hf. simpl. by rewrite Hf. Qed.

(** A loop over a concatenation is the loop over the first part followed by
    the loop over the second, which goes on counting. *)
Lemma for_enumerate_app {A} (body : nat → A → M unit) xs ys i :
  for_enumerate body i (xs ++ ys)
  = bind (for_enumerate body i xs)
      (fun _ => for_enumerate body (i + length xs) ys).
Proof.
  revert i. induction xs as [| x xs IH]; intros i.
  - change (for_enumerate body i [])%list with (ret tt : M unit).
    rewrite bind_ret_l. simpl. by rewrite Nat.add_0_r.
  - change (for_enumerate body i ((x :: xs) ++ ys))
      with (bind (body i x) (fun _ => for_enumerate body (S i) (xs ++ ys))).
    change (for_enumerate body i (x :: xs))
      with (bind (body i x) (fun _ => for_enumerate body (S i) xs)).
    rewrite bind_assoc.
    destruct (body i x) as [e | [[] ns]]; [reflexivity |].
    rewrite IH. simpl length. by rewrite Nat.add_succ_r.
Qed.

(** One iteration in the middle of a loop: the nodes of the iterations
    before it, its own nodes, and the nodes of the iterations after it. *)
Lemma for_enumerate_middle {A} (body : nat → A → M unit) before x after i
    ns1 nsx ns2 :
  for_enumerate body i before = inr (tt, ns1) →
  body (i + length before) x = inr (tt, nsx) →
  for_enumerate body (S (i + length before)) after = inr (tt, ns2) →
  for_enumerate body i (before ++ x :: after) = inr (tt, ns1 ++ nsx ++ ns2).
Proof.
  intros Hbefore Hx Hafter. rewrite for_enumerate_app, Hbefore.
  change (for_enumerate body (i + length before) (x :: after))
    with (bind (body (i + length before) x)
            (fun _ => for_enumerate body (S (i + length before)) after)).
  rewrite Hx. simpl. by rewrite Hafter.
Qed.

(** A loop returns exactly when each iteration returns, and then it has
    appended the nodes of the iterations one after the other, in the order
    of the list. *)
Lemma for_enumerate_inr {A} (body : nat → A → M unit) xs i ns :
  for_enumerate body i xs = inr (tt, ns) ↔
  ∃ nss : list (list node),
    length nss = length xs ∧ ns = concat nss ∧
    ∀ k x nk, xs !! k = Some x → nss !! k = Some nk →
      body (i + k) x = inr (tt, nk).
Proof.
  revert i ns. induction xs as [| x xs IH]; intros i ns.
  - split.
    + intros [= <-]. exists []. repeat split. intros k x nk Hk.
      by rewrite lookup_nil in Hk.
    + intros ([| ? ?] & Hlen & -> & _); [reflexivity | discriminate].
  - change (for_enumerate body i (x :: xs))
      with (bind (body i x) (fun _ => for_enumerate body (S i) xs)).
    split.
    + destruct (body i x) as [e | [[] nx]] eqn:Hx; [discriminate |].
      simpl. destruct (for_enumerate body (S i) xs) as [e | [[] nr]] eqn:Hr;
        [discriminate |].
      intros [= <-]. apply IH in Hr as (nss & Hlen & -> & Hall).
      exists (nx :: nss). repeat split; [simpl; by rewrite Hlen |].
      intros [| k] y nk; simpl.
      * intros [= <-] [= <-]. by rewrite Nat.add_0_r.
      * intros Hy Hnk. rewrite Nat.add_succ_r. by apply (Hall k y nk).
    + intros (nss & Hlen & -> & Hall). destruct nss as [| nx nss];
        [discriminate |].
      pose proof (Hall 0%nat x nx eq_refl eq_refl) as Hx.
      rewrite Nat.add_0_r in Hx. rewrite Hx. simpl.
      assert (for_enumerate body (S i) xs = inr (tt, concat nss)) as ->; [| done].
      apply IH. exists nss. repeat split; [by injection Hlen |].
      intros k y nk Hy Hnk. specialize (Hall (S k) y nk Hy Hnk).
      by rewrite Nat.add_succ_r in Hall.
Qed.

(** ** Selection of the MIME type *)

Lemma eq_str_true v s : eq_str v s = true ↔ v = VStr s.
Proof.
  destruct v; simpl; try (split; [discriminate | intros [=]]).
  rewrite String.eqb_eq. split; [by intros -> | by intros [= ->]].
Qed.

Lemma eq_str_false v s : eq_str v s = false ↔ v ≠ VStr s.
Proof.
  rewrite <- eq_str_true. destruct (eq_str v s); split; congruence.
Qed.

(** On a bundle that is a dict, the selection is a search of the priority
    list for the first entry that is a key of the bundle. *)
Lemma next_mime_type_find (output d : pydict) (priority : list string) :
  output !! "data" = Some (VDict d) →
  next_mime_type output priority
  = inr (snd <$> list_find (fun x => is_Some (d !! x)) priority).
Proof.
  intros Hdata. induction priority as [| x rest IH]; [reflexivity |].
  simpl. unfold dict_getitem. rewrite Hdata. simpl.
  rewrite IH. case_bool_decide as Hx.
  - by rewrite decide_True.
  - rewrite decide_False by done.
    by destruct (list_find _ rest) as [[? ?] |].
Qed.

(** The selection only reads the keys of the bundle. *)
Lemma next_mime_type_dom (output output' d d' : pydict) priority :
  output !! "data" = Some (VDict d) →
  output' !! "data" = Some (VDict d') →
  dom d' = dom d →
  next_mime_type output' priority = next_mime_type output priority.
Proof.
  intros Hd Hd' Hdom.
  rewrite (next_mime_type_find _ _ _ Hd), (next_mime_type_find _ _ _ Hd').
  f_equal. f_equal. apply list_find_ext. intros x.
  by rewrite <- !elem_of_dom, Hdom.
Qed.

(** A selected MIME type is a key of the bundle. *)
Lemma next_mime_type_payload (output d : pydict) priority mime_type :
  output !! "data" = Some (VDict d) →
  next_mime_type output priority = inr (Some mime_type) →
  is_Some (d !! mime_type).
Proof.
  intros Hdata. rewrite (next_mime_type_find _ _ _ Hdata).
  destruct (list_find _ priority) as [[i x] |] eqn:Hfind; [| discriminate].
  intros [= <-]. by apply list_find_Some in Hfind as (_ & ? & _).
Qed.

(** ** Resolution of the render configuration *)

(** The cell-level value wins when the sub-map of the cell has the key. *)
Lemma get_cell_render_config_cell cfg (md sub : pydict) key nb_key has_nb_key v :
  md !! cell_render_key cfg = Some (VDict sub) →
  sub !! key = Some v →
  get_cell_render_config cfg md key nb_key has_nb_key = inr v.
Proof.
  intros Hsub Hkey. unfold get_cell_render_config. rewrite Hsub.
  rewrite bool_decide_eq_true_2 by (rewrite Hkey; eauto).
  unfold dict_getitem. rewrite Hsub. simpl. unfold dict_getitem.
  by rewrite Hkey.
Qed.

(** Without a cell-level value the lookup goes to the notebook level, or
    fails when it is told not to. *)
Lemma get_cell_render_config_notebook cfg (md : pydict) key nb_key has_nb_key :
  (∀ sub, md !! cell_render_key cfg = Some (VDict sub) → sub !! key = None) →
  get_cell_render_config cfg md key nb_key has_nb_key
  = if has_nb_key then nb_config_getitem cfg (notebook_key key nb_key)
    else inl (KeyError key).
Proof.
  intros Habsent. unfold get_cell_render_config, notebook_key.
  destruct (md !! cell_render_key cfg) as [[| | | | | sub] |] eqn:Hsub;
    try (by destruct has_nb_key).
  rewrite bool_decide_eq_false_2; [by destruct has_nb_key |].
  rewrite (Habsent sub eq_refl). by intros [? [=]].
Qed.

(** C3. A cell-level value under the render-configuration key of the cell
    is returned whatever the notebook level says; without one, and with the
    notebook fallback allowed, the lookup returns the notebook-level value
    of the fallback key when one is given and of the key otherwise, and
    raises [KeyError] when the notebook level does not define it. *)
Theorem cell_config_overrides_notebook cfg (md : pydict) key nb_key :
  (∀ sub v has_nb_key,
     md !! cell_render_key cfg = Some (VDict sub) → sub !! key = Some v →
     get_cell_render_config cfg md key nb_key has_nb_key = inr v)
  ∧ ((∀ sub, md !! cell_render_key cfg = Some (VDict sub) →
             sub !! key = None) →
     get_cell_render_config cfg md key nb_key true
     = match config_values cfg !! notebook_key key nb_key with
       | Some v => inr v
       | None => inl (KeyError (notebook_key key nb_key))
       end).
Proof.
  split.
  - intros sub v has_nb_key. apply get_cell_render_config_cell.
  - intros Habsent.
    by rewrite (get_cell_render_config_notebook _ _ _ _ _ Habsent).
Qed.

Lemma cell_config_overrides_notebook_witness :
  get_cell_render_config example_config numbered_metadata
    "number_source_lines" None true = inr (VBool true)
  ∧ get_cell_render_config example_config numbered_metadata
      "remove_code_source" None true = inr (VBool false)
  ∧ get_cell_render_config example_config numbered_metadata
      "figure" None true = inl (KeyError "figure").
Proof.
  split; [| split].
  - apply (proj1 (cell_config_overrides_notebook example_config
                    numbered_metadata "number_source_lines" None)
             (<["number_source_lines" := VBool true]> ∅) (VBool true) true);
      reflexivity.
  - apply (proj2 (cell_config_overrides_notebook example_config
                    numbered_metadata "remove_code_source" None)).
    intros sub [= <-]. reflexivity.
  - apply (proj2 (cell_config_overrides_notebook example_config
                    numbered_metadata "figure" None)).
    intros sub [= <-]. reflexivity.
Defined.

(** C10. A value under the render-configuration key that is not a mapping
    is ignored: the lookup is the lookup in the metadata without that entry,
    and with the notebook fallback it is the notebook-level lookup, which
    returns the value that the notebook level defines.  The lookup yields a
    value or an exception and nothing else: it has no node to append. *)
Theorem non_mapping_cell_config_ignored cfg (md : pydict) key nb_key v :
  md !! cell_render_key cfg = Some v →
  (∀ sub, v ≠ VDict sub) →
  (∀ has_nb_key,
     get_cell_render_config cfg md key nb_key has_nb_key
     = get_cell_render_config cfg (delete (cell_render_key cfg) md) key nb_key
         has_nb_key)
  ∧ get_cell_render_config cfg md key nb_key true
    = nb_config_getitem cfg (notebook_key key nb_key)
  ∧ (∀ w, config_values cfg !! notebook_key key nb_key = Some w →
          get_cell_render_config cfg md key nb_key true = inr w).
Proof.
  intros Hv Hnodict.
  assert (∀ has_nb_key,
            get_cell_render_config cfg md key nb_key has_nb_key
            = if has_nb_key then nb_config_getitem cfg (notebook_key key nb_key)
              else inl (KeyError key)) as Hmd.
  { intros has_nb_key. apply get_cell_render_config_notebook.
    intros sub Hsub. rewrite Hv in Hsub. injection Hsub as ->.
    by destruct (Hnodict sub). }
  split; [| split].
  - intros has_nb_key. rewrite Hmd. symmetry.
    apply get_cell_render_config_notebook.
    intros sub. by rewrite lookup_delete_eq.
  - apply (Hmd true).
  - intros w Hw. rewrite (Hmd true). unfold nb_config_getitem. by rewrite Hw.
Qed.

Lemma non_mapping_cell_config_ignored_witness :
  get_cell_render_config example_config malformed_metadata
    "remove_code_source" None true = inr (VBool false).
Proof.
  apply (proj2 (proj2 (non_mapping_cell_config_ignored example_config
                         malformed_metadata "remove_code_source" None
                         (VStr "remove_code_source")
                         eq_refl ltac:(discriminate))) (VBool false)).
  reflexivity.
Defined.

(** ** Rendering of one output *)

Section OutputProperties.
Context `{!NbElementRenderer} `{!HostRenderer}.
Variable self : DocutilsNbRenderer.
Variable token : Token.

(** A display output for which a MIME type is selected: the figure options
    are looked up, and the nodes of the element renderer for that type and
    its payload are appended in the figure context. *)
Lemma render_output_selected (output d : pydict) output_index mime_type payload :
  is_display output →
  output !! "data" = Some (VDict d) →
  next_mime_type output (mime_priority self) = inr (Some mime_type) →
  d !! mime_type = Some payload →
  render_output self token output_index (VDict output)
  = bind (lift (suppress_KeyError VNone
                  (get_cell_render_config (nb_config self)
                     (meta_metadata token) "figure" None false)))
      (fun figure_options =>
         create_figure_context figure_options (token_line token)
           (extend (add_line_and_source_path_r self
                      (render_mime_type
                         (mime_data token output output_index mime_type
                            payload))
                      token))).
Proof.
  intros Hdisplay Hdata Hselected Hpayload.
  unfold render_output, node_getattr.
  assert (∀ fo, create_figure_context fo (token_line token)
            (bind (lift (dict_getitem output "data")) (fun data =>
               bind (lift (getitem_str data mime_type)) (fun payload =>
                 extend (add_line_and_source_path_r self
                   (render_mime_type
                      (mime_data token output output_index mime_type
                            payload))
                   token))))
          = create_figure_context fo (token_line token)
              (extend (add_line_and_source_path_r self
                 (render_mime_type
                    (mime_data token output output_index mime_type
                            payload))
                 token))) as Hbody.
  { intros fo. f_equal. unfold dict_getitem. rewrite Hdata, bind_lift_inr.
    simpl. unfold dict_getitem. by rewrite Hpayload, bind_lift_inr. }
  destruct Hdisplay as [-> | ->]; rewrite bind_lift_inr; simpl;
    rewrite Hselected, bind_lift_inr;
    (destruct (suppress_KeyError _ _) as [e | fo]; [reflexivity |]);
    rewrite !bind_lift_inr; apply Hbody.
Qed.

(** A display output for which no MIME type is selected: one warning. *)
Lemma render_output_not_selected (output : pydict) output_index :
  is_display output →
  next_mime_type output (mime_priority self) = inr None →
  render_output self token output_index (VDict output)
  = inr (tt, [mime_type_warning token]).
Proof.
  intros Hdisplay Hselected. unfold render_output, node_getattr.
  destruct Hdisplay as [-> | ->]; rewrite bind_lift_inr; simpl;
    by rewrite Hselected.
Qed.

(** An output of another kind than the four known ones: one warning. *)
Lemma render_output_unsupported (output : pydict) output_index output_type :
  output !! "output_type" = Some output_type →
  output_type ≠ VStr "stream" → output_type ≠ VStr "error" →
  output_type ≠ VStr "display_data" → output_type ≠ VStr "execute_result" →
  render_output self token output_index (VDict output)
  = inr (tt, [output_type_warning token output_type]).
Proof.
  intros Htype H1%eq_str_false H2%eq_str_false H3%eq_str_false
    H4%eq_str_false.
  unfold render_output, node_getattr. rewrite Htype, bind_lift_inr.
  by rewrite H1, H2, H3, H4.
Qed.

(** A stream that is neither the standard output nor the standard error:
    nothing. *)
Lemma render_output_unknown_stream (output : pydict) output_index name :
  output !! "output_type" = Some (VStr "stream") →
  output !! "name" = Some name →
  name ≠ VStr "stdout" → name ≠ VStr "stderr" →
  render_output self token output_index (VDict output) = inr (tt, []).
Proof.
  intros Htype Hname H1%eq_str_false H2%eq_str_false.
  unfold render_output, node_getattr. rewrite Htype, bind_lift_inr. simpl.
  rewrite Hname, bind_lift_inr. by rewrite H1, H2.
Qed.

(** The outputs that the loop of [render_nb_cell_code_outputs] goes over. *)
Lemma render_nb_cell_code_outputs_loop (cell : pydict) outputs :
  notebook_cells self !! meta_index token = Some cell →
  cell !! "outputs" = Some (VList outputs) →
  render_nb_cell_code_outputs self token
  = for_enumerate (render_output self token) 0 outputs.
Proof.
  intros Hcell Houtputs. unfold render_nb_cell_code_outputs, cell_outputs.
  rewrite Hcell, bind_lift_inr. unfold dict_get. rewrite Houtputs.
  cbn [py_iter]. by rewrite bind_lift_inr.
Qed.

(** An output that renders to [ns], between outputs that render: the cell
    renders, and [ns] stands between the nodes of the outputs before and the
    nodes of the outputs after. *)
Lemma render_nb_cell_code_outputs_middle (cell : pydict) before output after
    ns1 ns ns2 :
  notebook_cells self !! meta_index token = Some cell →
  cell !! "outputs" = Some (VList (before ++ output :: after)) →
  for_enumerate (render_output self token) 0 before = inr (tt, ns1) →
  render_output self token (length before) output = inr (tt, ns) →
  for_enumerate (render_output self token) (S (length before)) after
  = inr (tt, ns2) →
  render_nb_cell_code_outputs self token = inr (tt, ns1 ++ ns ++ ns2).
Proof.
  intros Hcell Houtputs Hbefore Houtput Hafter.
  rewrite (render_nb_cell_code_outputs_loop _ _ Hcell Houtputs).
  by apply for_enumerate_middle.
Qed.

End OutputProperties.

(** C1. For a display output whose bundle shares an entry with the priority
    list, the selected MIME type is the earliest entry of the list that is a
    key of the bundle; it is the type, with its payload, that the element
    renderer is asked to render; and the selection is the same for every
    output whose bundle has the same keys. *)
Theorem mime_type_selection_earliest `{!NbElementRenderer} `{!HostRenderer}
    (self : DocutilsNbRenderer) (token : Token) (output_index : nat)
    (output d : pydict) :
  is_display output →
  output !! "data" = Some (VDict d) →
  (∃ x, x ∈ mime_priority self ∧ is_Some (d !! x)) →
  ∃ i mime_type payload,
    mime_priority self !! i = Some mime_type
    ∧ d !! mime_type = Some payload
    ∧ (∀ j x, j < i → mime_priority self !! j = Some x → d !! x = None)
    ∧ next_mime_type output (mime_priority self) = inr (Some mime_type)
    ∧ render_output self token output_index (VDict output)
      = bind (lift (suppress_KeyError VNone
                      (get_cell_render_config (nb_config self)
                         (meta_metadata token) "figure" None false)))
          (fun figure_options =>
             create_figure_context figure_options (token_line token)
               (extend (add_line_and_source_path_r self
                          (render_mime_type
                             (mime_data token output output_index mime_type
                                payload)) token)))
    ∧ (∀ output' d' : pydict,
         output' !! "data" = Some (VDict d') → dom d' = dom d →
         next_mime_type output' (mime_priority self) = inr (Some mime_type)).
Proof.
  intros Hdisplay Hdata (x & Hx & Hdx).
  destruct (list_find (fun x => is_Some (d !! x)) (mime_priority self))
    as [[i mime_type] |] eqn:Hfind.
  - assert (next_mime_type output (mime_priority self) = inr (Some mime_type))
      as Hselected by (by rewrite (next_mime_type_find _ _ _ Hdata), Hfind).
    apply list_find_Some in Hfind as (Hi & [payload Hpayload] & Hmin).
    exists i, mime_type, payload. repeat split; try done.
    + intros j y Hj Hy. apply eq_None_not_Some. by apply (Hmin j y).
    + by apply render_output_selected with d.
    + intros output' d' Hdata' Hdom.
      by rewrite (next_mime_type_dom output output' d d').
  - apply list_find_None in Hfind. rewrite Forall_forall in Hfind.
    by destruct (Hfind x Hx).
Qed.

Lemma mime_type_selection_earliest_witness :
  ∃ mime_type,
    next_mime_type (bundle_output "execute_result" png_bundle) example_priority
    = inr (Some mime_type).
Proof.
  destruct (mime_type_selection_earliest (example_renderer [])
              (code_token 0 ∅ "6*7") 0
              (bundle_output "execute_result" png_bundle) png_bundle)
    as (i & mime_type & payload & _ & _ & _ & Hselected & _).
  - right. reflexivity.
  - reflexivity.
  - exists "image/png". split; [| by eexists].
    apply list_elem_of_In. simpl. tauto.
  - exists mime_type. exact Hselected.
Defined.

(** C2. A display output whose bundle shares no entry with the priority
    list renders to one warning node and no other node, and does not raise;
    in a cell, the warning stands between the nodes of the outputs before
    and the nodes of the outputs after, which are rendered all the same. *)
Theorem no_renderable_mime_type_warns `{!NbElementRenderer} `{!HostRenderer}
    (self : DocutilsNbRenderer) (token : Token) (output d : pydict) :
  is_display output →
  output !! "data" = Some (VDict d) →
  (∀ x, x ∈ mime_priority self → d !! x = None) →
  tagname (mime_type_warning token) = "system_message"
  ∧ (∀ output_index,
       render_output self token output_index (VDict output)
       = inr (tt, [mime_type_warning token]))
  ∧ (∀ (cell : pydict) before after ns1 ns2,
       notebook_cells self !! meta_index token = Some cell →
       cell !! "outputs" = Some (VList (before ++ VDict output :: after)) →
       for_enumerate (render_output self token) 0 before = inr (tt, ns1) →
       for_enumerate (render_output self token) (S (length before)) after
       = inr (tt, ns2) →
       render_nb_cell_code_outputs self token
       = inr (tt, ns1 ++ mime_type_warning token :: ns2)).
Proof.
  intros Hdisplay Hdata Hdisjoint.
  assert (∀ output_index,
            render_output self token output_index (VDict output)
            = inr (tt, [mime_type_warning token])) as Hwarn.
  { intros output_index. apply render_output_not_selected; [done |].
    rewrite (next_mime_type_find _ _ _ Hdata).
    assert (list_find (fun x => is_Some (d !! x)) (mime_priority self) = None)
      as ->; [| done].
    apply list_find_None, Forall_forall. intros x Hx.
    rewrite (Hdisjoint x Hx). by intros [? [=]]. }
  split; [reflexivity |]. split; [done |].
  intros cell before after ns1 ns2 Hcell Houtputs Hbefore Hafter.
  by apply (render_nb_cell_code_outputs_middle self token cell before
              (VDict output) after ns1 [mime_type_warning token] ns2).
Qed.

Lemma example_priority_elem (P : string → Prop) :
  P "text/html" → P "image/png" → P "text/plain" →
  ∀ x, x ∈ example_priority → P x.
Proof.
  intros H1 H2 H3 x Hx. apply list_elem_of_In in Hx. simpl in Hx.
  destruct Hx as [<- | [<- | [<- | []]]]; assumption.
Qed.

Lemma no_renderable_mime_type_warns_witness :
  appended_tags (render_nb_cell_code_outputs (example_renderer [latex_cell])
                   (code_token 0 ∅ "display(x)"))
  = inr ["stdout"; "system_message"; "stderr"].
Proof.
  destruct (no_renderable_mime_type_warns (example_renderer [latex_cell])
              (code_token 0 ∅ "display(x)")
              (bundle_output "display_data" latex_bundle) latex_bundle)
    as (_ & _ & Hcell).
  - left. reflexivity.
  - reflexivity.
  - apply example_priority_elem; reflexivity.
  - rewrite (Hcell latex_cell [stream_output "stdout" "before"]
               [stream_output "stderr" "after"]
               (appended (for_enumerate
                            (render_output (example_renderer [latex_cell])
                               (code_token 0 ∅ "display(x)")) 0
                            [stream_output "stdout" "before"]))
               (appended (for_enumerate
                            (render_output (example_renderer [latex_cell])
                               (code_token 0 ∅ "display(x)")) 2
                            [stream_output "stderr" "after"])));
      reflexivity.
Defined.

(** C7. An output whose type is none of [stream], [error], [display_data],
    [execute_result] renders to one warning node and no other node, and does
    not raise; in a cell, the warning stands in the place of the output,
    between the nodes of the outputs before and the nodes of the outputs
    after, which are rendered all the same. *)
Theorem unsupported_output_type_warns `{!NbElementRenderer} `{!HostRenderer}
    (self : DocutilsNbRenderer) (token : Token) (output : pydict)
    (output_type : pyval) :
  output !! "output_type" = Some output_type →
  output_type ≠ VStr "stream" → output_type ≠ VStr "error" →
  output_type ≠ VStr "display_data" → output_type ≠ VStr "execute_result" →
  tagname (output_type_warning token output_type) = "system_message"
  ∧ (∀ output_index,
       render_output self token output_index (VDict output)
       = inr (tt, [output_type_warning token output_type]))
  ∧ (∀ (cell : pydict) before after ns1 ns2,
       notebook_cells self !! meta_index token = Some cell →
       cell !! "outputs" = Some (VList (before ++ VDict output :: after)) →
       for_enumerate (render_output self token) 0 before = inr (tt, ns1) →
       for_enumerate (render_output self token) (S (length before)) after
       = inr (tt, ns2) →
       render_nb_cell_code_outputs self token
       = inr (tt, ns1 ++ output_type_warning token output_type :: ns2)).
Proof.
  intros Htype H1 H2 H3 H4.
  assert (∀ output_index,
            render_output self token output_index (VDict output)
            = inr (tt, [output_type_warning token output_type])) as Hwarn
    by (intros; by apply render_output_unsupported).
  split; [reflexivity |]. split; [done |].
  intros cell before after ns1 ns2 Hcell Houtputs Hbefore Hafter.
  by apply (render_nb_cell_code_outputs_middle self token cell before
              (VDict output) after ns1
              [output_type_warning token output_type] ns2).
Qed.

Lemma unsupported_output_type_warns_witness :
  appended_tags (render_nb_cell_code_outputs (example_renderer [update_cell])
                   (code_token 0 ∅ "h.update(x)"))
  = inr ["system_message"; "mime"].
Proof.
  destruct (unsupported_output_type_warns (example_renderer [update_cell])
              (code_token 0 ∅ "h.update(x)") update_output
              (VStr "update_display_data"))
    as (_ & _ & Hcell); [reflexivity | discriminate.. |].
  rewrite (Hcell update_cell []
             [VDict (bundle_output "execute_result" png_bundle)] []
             (appended (for_enumerate
                          (render_output (example_renderer [update_cell])
                             (code_token 0 ∅ "h.update(x)")) 1
                          [VDict (bundle_output "execute_result" png_bundle)])));
    reflexivity.
Defined.

(** C8. A stream output whose name is neither [stdout] nor [stderr] renders
    to nothing: no node, no warning, and no exception. *)
Theorem unknown_stream_dropped `{!NbElementRenderer} `{!HostRenderer}
    (self : DocutilsNbRenderer) (token : Token) (output_index : nat)
    (output : pydict) (name : pyval) :
  output !! "output_type" = Some (VStr "stream") →
  output !! "name" = Some name →
  name ≠ VStr "stdout" → name ≠ VStr "stderr" →
  render_output self token output_index (VDict output) = inr (tt, []).
Proof. apply render_output_unknown_stream. Qed.

Lemma unknown_stream_dropped_witness :
  render_output (example_renderer []) (code_token 0 ∅ "log()") 0
    (VDict stdlog_output) = inr (tt, []).
Proof.
  apply (unknown_stream_dropped (example_renderer [])
           (code_token 0 ∅ "log()") 0 stdlog_output (VStr "stdlog"));
    [reflexivity | reflexivity | discriminate | discriminate].
Defined.

(** C9. The figure options of a display output are looked up in the
    metadata of the cell with the notebook fallback switched off: when the
    cell has no figure option the lookup raises [KeyError], whatever the
    notebook level defines; the renderer suppresses it, and the output is
    rendered to the nodes of the element renderer as they are, without a
    figure around them and without an exception. *)
Theorem figure_options_cell_level_only `{!NbElementRenderer} `{!HostRenderer}
    (self : DocutilsNbRenderer) (token : Token) (output_index : nat)
    (output d : pydict) (mime_type : string) :
  is_display output →
  output !! "data" = Some (VDict d) →
  next_mime_type output (mime_priority self) = inr (Some mime_type) →
  (∀ sub, meta_metadata token !! cell_render_key (nb_config self)
          = Some (VDict sub) → sub !! "figure" = None) →
  get_cell_render_config (nb_config self) (meta_metadata token) "figure"
    None false = inl (KeyError "figure")
  ∧ ∃ payload,
      d !! mime_type = Some payload
      ∧ render_output self token output_index (VDict output)
        = inr (tt, add_line_and_source_path_r self
                     (render_mime_type
                        (mime_data token output output_index mime_type
                           payload)) token).
Proof.
  intros Hdisplay Hdata Hselected Habsent.
  pose proof (get_cell_render_config_notebook (nb_config self)
                (meta_metadata token) "figure" None false Habsent) as Hlookup.
  split; [exact Hlookup |].
  destruct (next_mime_type_payload _ _ _ _ Hdata Hselected)
    as [payload Hpayload].
  exists payload. split; [done |].
  rewrite (render_output_selected self token output d output_index mime_type
             payload) by done.
  rewrite Hlookup. reflexivity.
Qed.

Lemma figure_options_cell_level_only_witness :
  nb_config_getitem (nb_config figure_renderer) "figure"
  = inr (VDict (<["caption" := VStr "A figure"]> ∅))
  ∧ appended_tags
      (render_output figure_renderer (code_token 0 numbered_metadata "plot()")
         0 (VDict (bundle_output "display_data" png_bundle)))
    = inr ["mime"].
Proof.
  split; [reflexivity |].
  destruct (figure_options_cell_level_only figure_renderer
              (code_token 0 numbered_metadata "plot()") 0
              (bundle_output "display_data" png_bundle) png_bundle
              "image/png") as (_ & payload & _ & ->).
  - left. reflexivity.
  - reflexivity.
  - reflexivity.
  - intros sub [= <-]. reflexivity.
  - reflexivity.
Defined.

(** ** Visibility of the source and of the outputs of a code cell *)

(** Membership of a string in a list of tags. *)
Lemma str_in_list s (tags : list pyval) :
  ∃ b, str_in s (VList tags) = inr b ∧ (b = true ↔ VStr s ∈ tags).
Proof.
  eexists. split; [reflexivity |].
  rewrite existsb_exists. split.
  - intros (x & Hx & ->%eq_str_true). by apply list_elem_of_In.
  - intros Hs. exists (VStr s). split; [by apply list_elem_of_In |].
    by apply eq_str_true.
Qed.

(** The [or] of an option and of two spellings of a tag. *)
Lemma remove_flag_resolution (flag : pyval) (tags : list pyval) s1 s2 :
  ∃ b,
    (if truthy flag then inr true
     else found <~ str_in s1 (VList tags) ;;
          if (found : bool) then inr true else str_in s2 (VList tags))
    = inr b
    ∧ (b = true ↔ truthy flag = true ∨ VStr s1 ∈ tags ∨ VStr s2 ∈ tags).
Proof.
  destruct (truthy flag).
  - exists true. split; [reflexivity | tauto].
  - destruct (str_in_list s1 tags) as (b1 & -> & Hb1).
    destruct (str_in_list s2 tags) as (b2 & Hs2 & Hb2).
    simpl rbind. destruct b1.
    + exists true. split; [reflexivity | tauto].
    + exists b2. split; [exact Hs2 |].
      rewrite Hb2, <- Hb1. intuition discriminate.
Qed.

(** C6. For a cell whose tags are a list and whose options resolve,
    [remove_input] is true exactly when the value of [remove_code_source]
    for the cell is true, or [remove_input] is a tag, or [remove-input] is
    a tag; and [remove_output] is true exactly when the value of
    [remove_code_outputs] for the cell is true, or [remove_output] is a tag,
    or [remove-output] is a tag. *)
Theorem remove_flags_resolution (self : DocutilsNbRenderer)
    (metadata : pydict) (tags : list pyval) (source_flag outputs_flag : pyval) :
  cell_tags metadata = VList tags →
  get_cell_render_config (nb_config self) metadata "remove_code_source"
    None true = inr source_flag →
  get_cell_render_config (nb_config self) metadata "remove_code_outputs"
    None true = inr outputs_flag →
  (∃ b, remove_input self metadata = inr b
        ∧ (b = true ↔ truthy source_flag = true
                       ∨ VStr "remove_input" ∈ tags
                       ∨ VStr "remove-input" ∈ tags))
  ∧ (∃ b, remove_output self metadata = inr b
          ∧ (b = true ↔ truthy outputs_flag = true
                         ∨ VStr "remove_output" ∈ tags
                         ∨ VStr "remove-output" ∈ tags)).
Proof.
  intros Htags Hsource Houtputs. unfold remove_input, remove_output.
  rewrite Htags, Hsource, Houtputs. simpl rbind.
  split; apply remove_flag_resolution.
Qed.

Lemma remove_flags_resolution_witness :
  remove_input (example_renderer []) hidden_metadata = inr true
  ∧ remove_output (example_renderer []) hidden_metadata = inr true.
Proof.
  destruct (remove_flags_resolution (example_renderer []) hidden_metadata
              [VStr "remove-input"; VStr "remove_output"]
              (VBool false) (VBool false) eq_refl eq_refl eq_refl)
    as [(b1 & -> & Hb1) (b2 & -> & Hb2)].
  split; f_equal.
  - apply Hb1. right. right. apply list_elem_of_In. simpl. tauto.
  - apply Hb2. right. left. apply list_elem_of_In. simpl. tauto.
Defined.

(** C5. A code cell for which [remove_input] and [remove_output] are both
    true renders to no node at all. *)
Theorem removed_cell_renders_nothing `{!NbElementRenderer} `{!HostRenderer}
    (self : DocutilsNbRenderer) (token : Token) :
  remove_input self (meta_metadata token) = inr true →
  remove_output self (meta_metadata token) = inr true →
  render_nb_cell_code self token = inr (tt, []).
Proof.
  intros Hinput Houtput. unfold render_nb_cell_code.
  rewrite Hinput, bind_lift_inr, Houtput, bind_lift_inr. reflexivity.
Qed.

Lemma removed_cell_renders_nothing_witness :
  render_nb_cell_code (example_renderer [latex_cell])
    (code_token 0 hidden_metadata "display(x)") = inr (tt, []).
Proof.
  apply (removed_cell_renders_nothing (example_renderer [latex_cell])
           (code_token 0 hidden_metadata "display(x)"));
    reflexivity.
Defined.

(** ** Order of the cells and of the outputs *)

(** A context that returns has appended its container, and nothing else. *)
Lemma current_node_context_inr (container : node) (body : M unit) ns :
  current_node_context container body = inr (tt, ns) →
  ∃ inner,
    body = inr (tt, inner)
    ∧ ns = [Node (tagname container) (attributes container) (line container)
              (source container) (children container ++ inner)].
Proof.
  unfold current_node_context. destruct body as [e | [[] inner]];
    [discriminate |].
  intros [= <-]. by exists inner.
Qed.

Section OrderProperties.
Context `{!NbElementRenderer} `{!HostRenderer}.
Variable self : DocutilsNbRenderer.

(** The cell loop returns exactly when the body returns for each cell, and
    then it has appended the nodes of the cells one after the other, in the
    order of the notebook. *)
Lemma parse_cells_inr (cells : list pydict) ns :
  parse_cells cells = inr (tt, ns) ↔
  ∃ nss : list (list node),
    length nss = length cells ∧ ns = concat nss ∧
    ∀ k cell nk, cells !! k = Some cell → nss !! k = Some nk →
      parse_cell cell = inr (tt, nk).
Proof. apply (for_enumerate_inr (fun _ => parse_cell)). Qed.

(** A cell whose source is empty is skipped. *)
Lemma parse_cell_empty (cell : pydict) source :
  cell !! "source" = Some source → py_len source = inr 0 →
  parse_cell cell = inr (tt, []).
Proof.
  intros Hsource Hlen. unfold parse_cell, dict_getitem.
  by rewrite Hsource, bind_lift_inr, Hlen, bind_lift_inr.
Qed.

(** A code cell whose source is not empty is rendered to one cell node. *)
Lemma parse_cell_code (cell metadata : pydict) source n tags outputs :
  cell !! "cell_type" = Some (VStr "code") →
  cell !! "source" = Some source → py_len source = inr (S n) →
  cell !! "metadata" = Some (VDict metadata) →
  py_iter (dict_get metadata "tags" (VList [])) = inr tags →
  cell !! "outputs" = Some outputs →
  ∃ cell_node,
    parse_cell cell = inr (tt, [cell_node]) ∧ tagname cell_node = "CellNode".
Proof.
  intros Htype Hsource Hlen Hmetadata Htags Houtputs.
  unfold parse_cell, metadata_tags, dict_getitem, node_getattr.
  rewrite Hsource, bind_lift_inr, Hlen, bind_lift_inr. cbn [Nat.eqb].
  rewrite Hmetadata. cbn [rbind]. rewrite bind_lift_inr, Htags, bind_lift_inr.
  rewrite Htype, bind_lift_inr. cbn [eq_str String.eqb Ascii.eqb Bool.eqb].
  rewrite Houtputs, bind_lift_inr. by eexists.
Qed.

(** A code cell that is rendered is rendered to nothing when its source and
    its outputs are both removed, and to one container that carries its
    index otherwise. *)
Lemma render_nb_cell_code_inr (token : Token) ns :
  render_nb_cell_code self token = inr (tt, ns) →
  ∃ input_removed output_removed,
    remove_input self (meta_metadata token) = inr input_removed
    ∧ remove_output self (meta_metadata token) = inr output_removed
    ∧ if input_removed && output_removed then ns = []
      else ∃ cell_container,
             ns = [cell_container]
             ∧ tagname cell_container = "container"
             ∧ attributes cell_container !! "cell_index"
               = Some (VInt (Z.of_nat (meta_index token))).
Proof.
  unfold render_nb_cell_code.
  destruct (remove_input self (meta_metadata token)) as [e | ri];
    [discriminate |].
  destruct (remove_output self (meta_metadata token)) as [e | ro];
    [discriminate |].
  rewrite !bind_lift_inr. intros Hrender. exists ri, ro.
  split; [done |]. split; [done |].
  destruct (ri && ro); [by injection Hrender |].
  destruct (py_iter _) as [e | tags]; [discriminate |].
  rewrite bind_lift_inr in Hrender.
  destruct (tag_classes tags) as [e | classes]; [discriminate |].
  rewrite bind_lift_inr in Hrender.
  apply current_node_context_inr in Hrender as (inner & _ & ->).
  eexists. split; [reflexivity |]. split; [reflexivity |].
  cbn [attributes add_line_and_source_path container].
  rewrite lookup_insert_ne by done. rewrite lookup_insert_ne by done.
  by rewrite lookup_insert_eq.
Qed.

(** The outputs of a cell are rendered exactly when each of them is, at its
    index, and then the nodes of the outputs have been appended one after
    the other, in the order of the outputs. *)
Lemma render_nb_cell_code_outputs_inr (token : Token) (cell : pydict)
    outputs ns :
  notebook_cells self !! meta_index token = Some cell →
  cell !! "outputs" = Some (VList outputs) →
  render_nb_cell_code_outputs self token = inr (tt, ns) ↔
  ∃ nss : list (list node),
    length nss = length outputs ∧ ns = concat nss ∧
    ∀ k output nk, outputs !! k = Some output → nss !! k = Some nk →
      render_output self token k output = inr (tt, nk).
Proof.
  intros Hcell Houtputs.
  rewrite (render_nb_cell_code_outputs_loop self token cell outputs)
    by done.
  apply (for_enumerate_inr (render_output self token)).
Qed.

End OrderProperties.

(** C4, as the specification states it, fails: the cell loop skips a cell
    whose source is empty, although neither its source nor its outputs are
    removed. *)
Lemma empty_cell_skipped :
  ¬ skips_only_removed_cells (example_renderer [empty_cell]) [empty_cell].
Proof.
  intros Hrule.
  destruct (Hrule 0 empty_cell ∅ eq_refl eq_refl eq_refl) as (_ & Hinput & _).
  vm_compute in Hinput. discriminate Hinput.
Qed.

(** C4, amended.  Rendering keeps the order of the notebook.  The cell loop
    goes over the cells in index order and appends the nodes of each cell
    after the nodes of the cells before it; it skips a cell whose source is
    empty, and renders every other code cell to one cell node.
    [render_nb_cell_code] renders a code cell to nothing when its source and
    its outputs are both removed and to one container that carries the index
    of the cell otherwise.  The outputs of a code cell are rendered in the
    order of their indices. *)
Theorem notebook_order_preserved `{!NbElementRenderer} `{!HostRenderer}
    (self : DocutilsNbRenderer) :
  (∀ (cells : list pydict) ns,
     parse_cells cells = inr (tt, ns) ↔
     ∃ nss : list (list node),
       length nss = length cells ∧ ns = concat nss ∧
       ∀ k cell nk, cells !! k = Some cell → nss !! k = Some nk →
         parse_cell cell = inr (tt, nk))
  ∧ (∀ (cell : pydict) source,
       cell !! "source" = Some source → py_len source = inr 0 →
       parse_cell cell = inr (tt, []))
  ∧ (∀ (cell metadata : pydict) source n tags outputs,
       cell !! "cell_type" = Some (VStr "code") →
       cell !! "source" = Some source → py_len source = inr (S n) →
       cell !! "metadata" = Some (VDict metadata) →
       py_iter (dict_get metadata "tags" (VList [])) = inr tags →
       cell !! "outputs" = Some outputs →
       ∃ cell_node,
         parse_cell cell = inr (tt, [cell_node])
         ∧ tagname cell_node = "CellNode")
  ∧ (∀ token ns,
       render_nb_cell_code self token = inr (tt, ns) →
       ∃ input_removed output_removed,
         remove_input self (meta_metadata token) = inr input_removed
         ∧ remove_output self (meta_metadata token) = inr output_removed
         ∧ if input_removed && output_removed then ns = []
           else ∃ cell_container,
                  ns = [cell_container]
                  ∧ tagname cell_container = "container"
                  ∧ attributes cell_container !! "cell_index"
                    = Some (VInt (Z.of_nat (meta_index token))))
  ∧ (∀ token (cell : pydict) outputs ns,
       notebook_cells self !! meta_index token = Some cell →
       cell !! "outputs" = Some (VList outputs) →
       render_nb_cell_code_outputs self token = inr (tt, ns) ↔
       ∃ nss : list (list node),
         length nss = length outputs ∧ ns = concat nss ∧
         ∀ k output nk, outputs !! k = Some output → nss !! k = Some nk →
           render_output self token k output = inr (tt, nk)).
Proof.
  split; [apply parse_cells_inr |].
  split; [apply parse_cell_empty |].
  split; [apply parse_cell_code |].
  split; [apply render_nb_cell_code_inr |].
  apply render_nb_cell_code_outputs_inr.
Qed.

Lemma notebook_order_preserved_witness :
  parse_cell empty_cell = inr (tt, [])
  ∧ (∃ cell_node,
       parse_cell latex_cell = inr (tt, [cell_node])
       ∧ tagname cell_node = "CellNode")
  ∧ ∃ cell_container,
      render_nb_cell_code (example_renderer example_notebook)
        (code_token 2 ∅ "display(x)")
      = inr (tt, [cell_container])
      ∧ attributes cell_container !! "cell_index" = Some (VInt 2).
Proof.
  destruct (notebook_order_preserved (example_renderer example_notebook))
    as (_ & Hempty & Hcode & Hcell & _).
  split; [| split].
  - apply (Hempty empty_cell (VStr "")); reflexivity.
  - apply (Hcode latex_cell ∅ (VStr "display(x)") 9 []
             (VList [stream_output "stdout" "before";
                     VDict (bundle_output "display_data" latex_bundle);
                     stream_output "stderr" "after"]));
      reflexivity.
  - destruct (Hcell (code_token 2 ∅ "display(x)")
                (appended (render_nb_cell_code
                             (example_renderer example_notebook)
                             (code_token 2 ∅ "display(x)"))))
      as (input_removed & output_removed & Hinput & Houtput & Hnodes);
      [reflexivity |].
    injection Hinput as <-. injection Houtput as <-.
    destruct Hnodes as (cell_container & Hns & _ & Hindex).
    exists cell_container. split; [| exact Hindex].
    rewrite <- Hns. reflexivity.
Defined.

(** * Further properties of the code *)

(** ** Registration of directives and roles *)

Lemma register_all_lookup {A} (new registry : gmap string A) name :
  register_all new registry !! name
  = match new !! name with
    | Some x => Some x
    | None => registry !! name
    end.
Proof.
  unfold register_all. revert name.
  apply (map_fold_weak_ind (fun r (m : gmap string A) =>
    ∀ name, r !! name = match m !! name with
                        | Some x => Some x
                        | None => registry !! name
                        end)).
  - intros name. by rewrite lookup_empty.
  - intros i x m r Hi IH name. destruct (decide (i = name)) as [-> |].
    + by rewrite !lookup_insert_eq.
    + rewrite !lookup_insert_ne by done. apply IH.
Qed.

Lemma unregister_all_lookup {A} (new registry : gmap string A) name :
  unregister_all new registry !! name
  = match new !! name with
    | Some _ => None
    | None => registry !! name
    end.
Proof.
  unfold unregister_all. revert name.
  apply (map_fold_weak_ind (fun r (m : gmap string A) =>
    ∀ name, r !! name = match m !! name with
                        | Some _ => None
                        | None => registry !! name
                        end)).
  - intros name. by rewrite lookup_empty.
  - intros i x m r Hi IH name. destruct (decide (i = name)) as [-> |].
    + by rewrite lookup_delete_eq, lookup_insert_eq.
    + rewrite lookup_delete_ne, lookup_insert_ne by done. apply IH.
Qed.

(** X1. Whether [_parse] returns or raises, [Parser.parse] has its outcome
    and leaves none of the names it registered in the registries: a name of
    [new_directives] or of the glue roles is unregistered afterwards, also
    when it was registered before the call, and every other name is as
    [_parse] left it. *)
Theorem parse_unregisters `{!ParserEnvironment} inputstring doc registries :
  (parse inputstring doc registries).2
  = (_parse inputstring doc (registered registries)).2
  ∧ (∀ name,
       directives (parse inputstring doc registries).1 !! name
       = match new_directives !! name with
         | Some _ => None
         | None =>
             directives (_parse inputstring doc (registered registries)).1
             !! name
         end)
  ∧ (∀ name,
       roles (parse inputstring doc registries).1 !! name
       = match get_glue_roles !! name with
         | Some _ => None
         | None =>
             roles (_parse inputstring doc (registered registries)).1 !! name
         end)
  ∧ directives (parse inputstring doc registries).1 !! "code-cell" = None
  ∧ directives (parse inputstring doc registries).1 !! "raw-cell" = None.
Proof.
  unfold parse.
  destruct (_parse inputstring doc (registered registries))
    as [after outcome]; simpl.
  split; [reflexivity |].
  split; [intros name; apply unregister_all_lookup |].
  split; [intros name; apply unregister_all_lookup |].
  rewrite !unregister_all_lookup. unfold new_directives.
  rewrite lookup_insert_ne by done. by rewrite !lookup_insert_eq.
Qed.

(** X2. While [_parse] runs, [code-cell] and [raw-cell] name
    [UnexpectedCellDirective], whatever the glue directives and the
    registry held under these names; every other glue directive and every
    glue role is registered under its name; and the other names are as they
    were. *)
Theorem parse_registers `{!ParserEnvironment} registries :
  directives (registered registries) !! "code-cell"
  = Some UnexpectedCellDirective
  ∧ directives (registered registries) !! "raw-cell"
    = Some UnexpectedCellDirective
  ∧ (∀ name d,
       get_glue_directives !! name = Some d →
       name ≠ "code-cell" → name ≠ "raw-cell" →
       directives (registered registries) !! name = Some d)
  ∧ (∀ name r,
       get_glue_roles !! name = Some r →
       roles (registered registries) !! name = Some r)
  ∧ (∀ name,
       new_directives !! name = None →
       directives (registered registries) !! name
       = directives registries !! name)
  ∧ (∀ name,
       get_glue_roles !! name = None →
       roles (registered registries) !! name = roles registries !! name).
Proof.
  unfold registered; simpl. repeat split.
  - rewrite register_all_lookup. unfold new_directives.
    rewrite lookup_insert_ne by done. by rewrite lookup_insert_eq.
  - rewrite register_all_lookup. unfold new_directives.
    by rewrite lookup_insert_eq.
  - intros name d Hd H1 H2. rewrite register_all_lookup.
    unfold new_directives. rewrite !lookup_insert_ne by done.
    by rewrite Hd.
  - intros name r Hr. by rewrite register_all_lookup, Hr.
  - intros name Hname. by rewrite register_all_lookup, Hname.
  - intros name Hname. by rewrite register_all_lookup, Hname.
Qed.

Lemma parse_registers_witness :
  directives (registered example_registries) !! "glue" = Some "PasteAny"
  ∧ roles (registered example_registries) !! "math" = Some "Math".
Proof.
  destruct (parse_registers example_registries)
    as (_ & _ & Hglue & _ & _ & Hroles).
  split.
  - apply (Hglue "glue" "PasteAny"); [reflexivity | discriminate..].
  - exact (Hroles "math" eq_refl).
Defined.

Example parse_example :
  parse "" tt example_registries
  = ({| directives := <["note" := "Note"]> ∅;
        roles := <["math" := "Math"]> ∅ |},
     inl (KeyError "nbformat")).
Proof. vm_compute. reflexivity. Qed.

(** ** The notebook metadata *)

(** X3. When the metadata are forwarded to the front matter, the front
    matter is rendered from the metadata that the element renderer returns
    without the three special keys, and with every other key and its value
    unchanged. *)
Theorem front_matter_without_special_keys `{!MetadataRenderer}
    (token_meta document : pydict) :
  ∃ top_matter : pydict,
    (render_nb_metadata true token_meta document).2
    = render_front_matter top_matter
    ∧ top_matter !! "kernelspec" = None
    ∧ top_matter !! "language_info" = None
    ∧ top_matter !! "source_map" = None
    ∧ (∀ key, key ∉ special_keys →
         top_matter !! key = nb_renderer_render_nb_metadata token_meta !! key).
Proof.
  eexists. split; [reflexivity |].
  assert (∀ key, key ∈ special_keys →
            filter (fun kv : string * pyval => kv.1 ∉ special_keys)
              (nb_renderer_render_nb_metadata token_meta) !! key = None)
    as Hspecial.
  { intros key Hkey. apply map_lookup_filter_None. right.
    intros x _ Hnot. by apply Hnot. }
  split; [apply Hspecial, list_elem_of_In; simpl; tauto |].
  split; [apply Hspecial, list_elem_of_In; simpl; tauto |].
  split; [apply Hspecial, list_elem_of_In; simpl; tauto |].
  intros key Hkey. rewrite map_lookup_filter.
  destruct (nb_renderer_render_nb_metadata token_meta !! key) as [x |];
    [| reflexivity].
  simpl. by rewrite option_guard_True.
Qed.

Lemma front_matter_without_special_keys_witness :
  appended (render_nb_metadata true example_notebook_metadata ∅).2
  = [Node "docinfo" (<["author" := VStr "Ada"]> ∅) None None []].
Proof.
  destruct (front_matter_without_special_keys example_notebook_metadata ∅)
    as (top_matter & -> & Hkernel & Hlanguage & Hmap & Hother).
  assert (top_matter = <["author" := VStr "Ada"]> ∅) as ->; [| reflexivity].
  apply map_eq. intros key.
  destruct (decide (key ∈ special_keys)) as [Hkey | Hkey].
  - apply list_elem_of_In in Hkey. simpl in Hkey.
    destruct Hkey as [<- | [<- | [<- | []]]].
    + rewrite Hkernel. reflexivity.
    + rewrite Hlanguage. reflexivity.
    + rewrite Hmap. reflexivity.
  - rewrite (Hother key Hkey). simpl. unfold example_notebook_metadata.
    rewrite lookup_insert_ne; [reflexivity |].
    intros <-. apply Hkey, list_elem_of_In. simpl. tauto.
Defined.

(** The attribute of the document under which a special key is saved. *)
Lemma save_special_keys_lookup (metadata document : pydict) attr :
  save_special_keys metadata document !! attr
  = if decide (attr = "nb_source_map") then
      match metadata !! "source_map" with
      | Some v => Some v
      | None => document !! attr
      end
    else if decide (attr = "nb_language_info") then
      match metadata !! "language_info" with
      | Some v => Some v
      | None => document !! attr
      end
    else if decide (attr = "nb_kernelspec") then
      match metadata !! "kernelspec" with
      | Some v => Some v
      | None => document !! attr
      end
    else document !! attr.
Proof.
  unfold save_special_keys, special_keys. cbn [foldl].
  change ("nb_" +:+ "kernelspec") with "nb_kernelspec".
  change ("nb_" +:+ "language_info") with "nb_language_info".
  change ("nb_" +:+ "source_map") with "nb_source_map".
  destruct (metadata !! "kernelspec"), (metadata !! "language_info"),
    (metadata !! "source_map");
    repeat case_decide; subst; simplify_map_eq; reflexivity.
Qed.

(** X4. [render_nb_metadata] saves each special key that the notebook
    metadata have on the document, under the key prefixed with [nb_] and
    with the value of the notebook metadata, whether the front matter is
    rendered or not; the attributes of special keys that the metadata do
    not have, and all other attributes of the document, are unchanged; and
    nothing is rendered when the front matter is switched off. *)
Theorem special_keys_saved_on_document `{!MetadataRenderer}
    (metadata_to_fm : bool) (token_meta document : pydict) :
  (∀ key value,
     key ∈ special_keys → token_meta !! key = Some value →
     (render_nb_metadata metadata_to_fm token_meta document).1
     !! ("nb_" +:+ key) = Some value)
  ∧ (∀ key,
       key ∈ special_keys → token_meta !! key = None →
       (render_nb_metadata metadata_to_fm token_meta document).1
       !! ("nb_" +:+ key) = document !! ("nb_" +:+ key))
  ∧ (∀ attr,
       (∀ key, key ∈ special_keys → attr ≠ "nb_" +:+ key) →
       (render_nb_metadata metadata_to_fm token_meta document).1 !! attr
       = document !! attr)
  ∧ (render_nb_metadata false token_meta document).2 = ret tt.
Proof.
  unfold render_nb_metadata; simpl. repeat split.
  - intros key value Hkey Hvalue. rewrite save_special_keys_lookup.
    apply list_elem_of_In in Hkey. simpl in Hkey.
    destruct Hkey as [<- | [<- | [<- | []]]]; simpl;
      repeat case_decide; try discriminate; by rewrite Hvalue.
  - intros key Hkey Hvalue. rewrite save_special_keys_lookup.
    apply list_elem_of_In in Hkey. simpl in Hkey.
    destruct Hkey as [<- | [<- | [<- | []]]]; simpl;
      repeat case_decide; try discriminate; by rewrite Hvalue.
  - intros attr Hattr. rewrite save_special_keys_lookup.
    assert (∀ key, In key special_keys → attr ≠ "nb_" +:+ key) as Hattr'
      by (intros key Hkey; by apply Hattr, list_elem_of_In).
    simpl in Hattr'.
    rewrite !decide_False; [reflexivity | |  |].
    + apply (Hattr' "kernelspec"). tauto.
    + apply (Hattr' "language_info"). tauto.
    + apply (Hattr' "source_map"). tauto.
Qed.

Lemma special_keys_saved_on_document_witness :
  (render_nb_metadata false example_notebook_metadata ∅).1 !! "nb_kernelspec"
  = Some (VDict (<["name" := VStr "python3"]> ∅))
  ∧ (render_nb_metadata false example_notebook_metadata ∅).1
    !! "nb_source_map" = None.
Proof.
  destruct (special_keys_saved_on_document false example_notebook_metadata ∅)
    as (Hsaved & Hunset & _ & _).
  split.
  - apply (Hsaved "kernelspec"); [| reflexivity].
    apply list_elem_of_In. simpl. tauto.
  - apply (Hunset "source_map"); [| reflexivity].
    apply list_elem_of_In. simpl. tauto.
Defined.

(** ** Lookups without the notebook level *)

(** X13. With the notebook fallback switched off, the lookup returns a
    value exactly when the render configuration of the cell is a mapping
    that has the key, and then that value; every failure is a [KeyError];
    and neither the fallback key nor the values of the notebook level have
    any influence. *)
Theorem cell_only_lookup cfg (md : pydict) key nb_key :
  (∀ v,
     get_cell_render_config cfg md key nb_key false = inr v ↔
     ∃ sub : pydict,
       md !! cell_render_key cfg = Some (VDict sub) ∧ sub !! key = Some v)
  ∧ (∀ e,
       get_cell_render_config cfg md key nb_key false = inl e →
       e = KeyError key)
  ∧ (∀ cfg' nb_key',
       cell_render_key cfg' = cell_render_key cfg →
       get_cell_render_config cfg' md key nb_key' false
       = get_cell_render_config cfg md key nb_key false).
Proof.
  assert (∀ cfg0 nb_key0,
            cell_render_key cfg0 = cell_render_key cfg →
            get_cell_render_config cfg0 md key nb_key0 false
            = match md !! cell_render_key cfg with
              | Some (VDict sub) =>
                  match sub !! key with
                  | Some v => inr v
                  | None => inl (KeyError key)
                  end
              | _ => inl (KeyError key)
              end) as Hlookup.
  { intros cfg0 nb_key0 Hkey.
    destruct (md !! cell_render_key cfg) as [[| | | | | sub] |] eqn:Hmd;
      try (rewrite get_cell_render_config_notebook;
           [reflexivity | intros sub0; rewrite Hkey, Hmd; discriminate]).
    destruct (sub !! key) as [v |] eqn:Hsub.
    - apply get_cell_render_config_cell with sub; [by rewrite Hkey | done].
    - rewrite get_cell_render_config_notebook; [reflexivity |].
      intros sub0. rewrite Hkey, Hmd. by intros [= <-]. }
  split; [| split].
  - intros v. rewrite (Hlookup cfg nb_key eq_refl). split.
    + destruct (md !! cell_render_key cfg) as [[| | | | | sub] |];
        try discriminate.
      destruct (sub !! key) as [w |] eqn:Hsub; [| discriminate].
      intros [= <-]. by exists sub.
    + intros (sub & -> & ->). reflexivity.
  - intros e. rewrite (Hlookup cfg nb_key eq_refl).
    destruct (md !! cell_render_key cfg) as [[| | | | | sub] |];
      try (by intros [= <-]).
    destruct (sub !! key); [discriminate | by intros [= <-]].
  - intros cfg' nb_key' Hkey.
    by rewrite (Hlookup cfg' nb_key' Hkey), (Hlookup cfg nb_key eq_refl).
Qed.

Lemma cell_only_lookup_witness :
  get_cell_render_config example_config numbered_metadata
    "number_source_lines" (Some "number_lines") false = inr (VBool true)
  ∧ get_cell_render_config (nb_config figure_renderer) numbered_metadata
      "figure" None false
    = get_cell_render_config example_config numbered_metadata "figure"
        (Some "figure_options") false.
Proof.
  split.
  - apply (proj1 (cell_only_lookup example_config numbered_metadata
                    "number_source_lines" (Some "number_lines"))).
    exists (<["number_source_lines" := VBool true]> ∅).
    split; reflexivity.
  - apply (proj2 (proj2 (cell_only_lookup example_config numbered_metadata
                           "figure" (Some "figure_options")))).
    reflexivity.
Defined.

(** ** The classes of a cell *)

Lemma replace_char_without (old new : ascii) s :
  old ≠ new → old ∉ characters (replace_char old new s).
Proof.
  intros Hne. unfold characters. induction s as [| c s IH]; simpl.
  - apply not_elem_of_nil.
  - apply not_elem_of_cons. split; [| exact IH].
    destruct (Ascii.eqb_spec c old); congruence.
Qed.

(** The classes of tags that are strings. *)
Lemma tag_classes_fmap (names : list string) :
  tag_classes (VStr <$> names) = inr (tag_class <$> names).
Proof.
  induction names as [| name names IH]; [reflexivity |].
  change (tag_classes (VStr <$> name :: names))
    with (rbind (tag_classes (VStr <$> names))
            (fun classes => inr (tag_class name :: classes))).
  by rewrite IH.
Qed.

(** Tags that have classes are strings. *)
Lemma tag_classes_inr (tags : list pyval) (classes : list string) :
  tag_classes tags = inr classes →
  ∃ names : list string, tags = VStr <$> names ∧ classes = tag_class <$> names.
Proof.
  revert classes. induction tags as [| tag tags IH]; intros classes.
  - intros [= <-]. by exists [].
  - destruct tag as [| | | name | |]; try discriminate. simpl.
    destruct (tag_classes tags) as [e | rest]; [discriminate |].
    intros [= <-]. destruct (IH rest eq_refl) as (names & -> & ->).
    by exists (name :: names).
Qed.

Lemma tag_class_without_space (name : string) :
  " "%char ∉ characters (tag_class name).
Proof.
  unfold tag_class. simpl. rewrite !not_elem_of_cons.
  repeat split; try discriminate. by apply replace_char_without.
Qed.

(** X5. The classes of the tags are computed exactly when every tag is a
    string; there is then one class for each tag, in the order of the tags:
    [tag_] followed by the tag with its spaces replaced by underscores, so
    that no class contains a space. *)
Theorem tag_classes_of_strings (tags : list pyval) (classes : list string) :
  tag_classes tags = inr classes ↔
  ∃ names : list string,
    tags = VStr <$> names
    ∧ classes = tag_class <$> names
    ∧ length classes = length tags
    ∧ Forall (fun class => " "%char ∉ characters class) classes.
Proof.
  split.
  - intros (names & -> & ->)%tag_classes_inr. exists names.
    repeat split; [by rewrite !length_fmap |].
    apply Forall_fmap, Forall_forall. intros name _.
    apply tag_class_without_space.
  - intros (names & -> & -> & _). apply tag_classes_fmap.
Qed.

Lemma tag_classes_of_strings_witness :
  tag_classes [VStr "hide input"; VStr "full width"]
  = inr ["tag_hide_input"; "tag_full_width"].
Proof.
  apply (proj2 (tag_classes_of_strings [VStr "hide input"; VStr "full width"]
                  ["tag_hide_input"; "tag_full_width"])).
  exists ["hide input"; "full width"]. repeat split.
  repeat constructor; vm_compute; intros H; inversion H; subst;
    repeat match goal with
           | H : _ ∈ _ |- _ => inversion H; clear H; subst
           end.
Defined.

(** X6. The classes of the tags fail exactly when a tag is not a string,
    and then with the [AttributeError] of the missing [replace] method. *)
Theorem tag_classes_of_other_values (tags : list pyval) (e : exn) :
  tag_classes tags = inl e ↔
  e = AttributeError "replace" ∧ ∃ tag, tag ∈ tags ∧ ∀ name, tag ≠ VStr name.
Proof.
  split.
  - induction tags as [| tag tags IH]; [discriminate |].
    destruct tag as [| | | name | |];
      try (intros [= <-]; split; [reflexivity |]; eexists;
           split; [apply list_elem_of_here | discriminate]).
    simpl. destruct (tag_classes tags) as [e' | rest]; [| discriminate].
    intros [= <-]. destruct (IH eq_refl) as (-> & tag & Htag & Hname).
    split; [reflexivity |]. exists tag. split; [by apply list_elem_of_further |].
    exact Hname.
  - intros (-> & tag & Htag & Hname).
    induction tags as [| tag' tags IH]; [by apply elem_of_nil in Htag |].
    destruct tag' as [| | | name | |]; try reflexivity.
    apply elem_of_cons in Htag as [-> | Htag]; [by destruct (Hname name) |].
    simpl. by rewrite (IH Htag).
Qed.

Lemma tag_classes_of_other_values_witness :
  tag_classes [VStr "hide-input"; VInt 3] = inl (AttributeError "replace").
Proof.
  apply (proj2 (tag_classes_of_other_values [VStr "hide-input"; VInt 3]
                  (AttributeError "replace"))).
  split; [reflexivity |]. exists (VInt 3). split; [| discriminate].
  apply list_elem_of_In. simpl. tauto.
Defined.

(** ** Evaluation of the visibility flags *)

(** X9. The tags are only searched when the option is false.  When the
    option of the cell is true, [remove_input] is true whatever the tags
    are, also when they are no container; when the option is false and the
    tags are no container, it raises [TypeError]; and when the option cannot
    be resolved, it raises the exception of the lookup, whatever the tags
    are.  The same holds of [remove_output]. *)
Theorem remove_flags_short_circuit (self : DocutilsNbRenderer)
    (metadata : pydict) :
  (∀ flag,
     get_cell_render_config (nb_config self) metadata "remove_code_source"
       None true = inr flag →
     truthy flag = true → remove_input self metadata = inr true)
  ∧ (∀ flag tags,
       get_cell_render_config (nb_config self) metadata "remove_code_source"
         None true = inr flag →
       truthy flag = false →
       metadata !! "tags" = Some tags → not_a_container tags →
       remove_input self metadata = inl TypeError)
  ∧ (∀ e,
       get_cell_render_config (nb_config self) metadata "remove_code_source"
         None true = inl e →
       remove_input self metadata = inl e)
  ∧ (∀ flag,
       get_cell_render_config (nb_config self) metadata "remove_code_outputs"
         None true = inr flag →
       truthy flag = true → remove_output self metadata = inr true)
  ∧ (∀ flag tags,
       get_cell_render_config (nb_config self) metadata "remove_code_outputs"
         None true = inr flag →
       truthy flag = false →
       metadata !! "tags" = Some tags → not_a_container tags →
       remove_output self metadata = inl TypeError)
  ∧ (∀ e,
       get_cell_render_config (nb_config self) metadata "remove_code_outputs"
         None true = inl e →
       remove_output self metadata = inl e).
Proof.
  unfold remove_input, remove_output, cell_tags, dict_get.
  repeat split.
  - intros flag -> Hflag. simpl. by rewrite Hflag.
  - intros flag tags -> Hflag -> Htags. simpl. rewrite Hflag.
    by destruct tags.
  - by intros e ->.
  - intros flag -> Hflag. simpl. by rewrite Hflag.
  - intros flag tags -> Hflag -> Htags. simpl. rewrite Hflag.
    by destruct tags.
  - by intros e ->.
Qed.

Lemma remove_flags_short_circuit_witness :
  remove_input (example_renderer []) untagged_metadata = inr true
  ∧ remove_output (example_renderer []) untagged_metadata = inl TypeError
  ∧ remove_input (bare_renderer []) hidden_metadata
    = inl (KeyError "remove_code_source").
Proof.
  split; [| split].
  - apply (proj1 (remove_flags_short_circuit (example_renderer [])
                    untagged_metadata) (VBool true)); reflexivity.
  - destruct (remove_flags_short_circuit (example_renderer [])
                untagged_metadata) as (_ & _ & _ & _ & Houtput & _).
    apply (Houtput (VBool false) VNone); reflexivity.
  - destruct (remove_flags_short_circuit (bare_renderer []) hidden_metadata)
      as (_ & _ & Herror & _).
    apply Herror. reflexivity.
Defined.

(** ** The container of a code cell *)

Lemma bind_inr_inv {A B} (m : M A) (f : A → M B) b ns :
  bind m f = inr (b, ns) →
  ∃ a ns1 ns2, m = inr (a, ns1) ∧ f a = inr (b, ns2) ∧ ns = ns1 ++ ns2.
Proof.
  destruct m as [e | [a ns1]]; simpl; [discriminate |].
  destruct (f a) as [e | [b' ns2]] eqn:Hf; [discriminate |].
  intros [= <- <-]. by exists a, ns1, ns2.
Qed.

Lemma lift_inr_inv {A} (r : result A) a ns :
  lift r = inr (a, ns) → r = inr a ∧ ns = [].
Proof. destruct r; simpl; [discriminate |]. by intros [= <- <-]. Qed.

Section CellProperties.
Context `{!NbElementRenderer} `{!HostRenderer}.
Variable self : DocutilsNbRenderer.
Variable token : Token.

(** The rendering of a code cell that is not removed as a whole: a context
    on the cell container, in which the source and the outputs are
    rendered. *)
Lemma render_nb_cell_code_kept input_removed output_removed ns :
  remove_input self (meta_metadata token) = inr input_removed →
  remove_output self (meta_metadata token) = inr output_removed →
  input_removed && output_removed = false →
  render_nb_cell_code self token = inr (tt, ns) →
  ∃ tags classes inputs has_outputs outputs,
    py_iter (cell_tags (meta_metadata token)) = inr tags
    ∧ tag_classes tags = inr classes
    ∧ ns = [Node "container"
              (<["classes" := VList (List.map VStr ("cell" :: classes))]>
                (<["nb_element" := VStr "cell_code"]>
                  (<["cell_index" := VInt (Z.of_nat (meta_index token))]>
                    (<["exec_count" := meta_execution_count token]>
                      (<["cell_metadata" := VDict (meta_metadata token)]>
                         ∅)))))
              (Some (token_line token)) (Some (document_source self))
              (inputs ++ outputs)]
    ∧ (if input_removed then inputs = []
       else ∃ block,
              render_nb_cell_code_source self token = inr (tt, block)
              ∧ inputs
                = [Node "container"
                     (<["classes" := VList [VStr "cell_input"]]>
                       (<["nb_element" := VStr "cell_code_source"]> ∅))
                     (Some (token_line token)) (Some (document_source self))
                     block])
    ∧ cell_outputs self (meta_index token) = inr has_outputs
    ∧ (if negb output_removed && truthy has_outputs then
         ∃ rendered,
           render_nb_cell_code_outputs self token = inr (tt, rendered)
           ∧ outputs
             = [Node "container"
                  (<["classes" := VList [VStr "cell_output"]]>
                    (<["nb_element" := VStr "cell_code_output"]> ∅))
                  (Some (token_line token)) (Some (document_source self))
                  rendered]
       else outputs = []).
Proof.
  intros Hinput Houtput Hboth. unfold render_nb_cell_code.
  rewrite Hinput, bind_lift_inr, Houtput, bind_lift_inr, Hboth.
  destruct (py_iter (cell_tags (meta_metadata token))) as [e | tags]
    eqn:Htags; [discriminate |].
  rewrite bind_lift_inr.
  destruct (tag_classes tags) as [e | classes] eqn:Hclasses; [discriminate |].
  rewrite bind_lift_inr.
  intros (inner & Hbody & ->)%current_node_context_inr.
  apply bind_inr_inv in Hbody as ([] & inputs & rest & Hinputs & Hrest & ->).
  apply bind_inr_inv in Hrest
    as (has_outputs & empty & outputs & Hhas & Houtputs & ->).
  apply lift_inr_inv in Hhas as [Hhas ->].
  exists tags, classes, inputs, has_outputs, outputs.
  split; [reflexivity |]. split; [exact Hclasses |]. split; [reflexivity |].
  split; [| split; [exact Hhas |]].
  - destruct input_removed; simpl in Hinputs; [by injection Hinputs |].
    apply current_node_context_inr in Hinputs as (block & Hblock & ->).
    by exists block.
  - destruct (negb output_removed && truthy has_outputs);
      [| by injection Houtputs].
    apply current_node_context_inr in Houtputs as (rendered & Hrendered & ->).
    by exists rendered.
Qed.

End CellProperties.

(** X7. A code cell that is rendered and not removed as a whole is rendered
    to one container that carries the source location of the token, the
    index, the execution count and the metadata of the cell; its tags are
    strings, and its classes are [cell] followed by the classes of the tags
    in the order of the tags. *)
Theorem cell_container_attributes `{!NbElementRenderer} `{!HostRenderer}
    (self : DocutilsNbRenderer) (token : Token) input_removed output_removed
    (tags : list pyval) ns :
  remove_input self (meta_metadata token) = inr input_removed →
  remove_output self (meta_metadata token) = inr output_removed →
  input_removed && output_removed = false →
  cell_tags (meta_metadata token) = VList tags →
  render_nb_cell_code self token = inr (tt, ns) →
  ∃ cell names,
    ns = [cell]
    ∧ tags = VStr <$> names
    ∧ tagname cell = "container"
    ∧ line cell = Some (token_line token)
    ∧ source cell = Some (document_source self)
    ∧ attributes cell !! "nb_element" = Some (VStr "cell_code")
    ∧ attributes cell !! "cell_index"
      = Some (VInt (Z.of_nat (meta_index token)))
    ∧ attributes cell !! "exec_count" = Some (meta_execution_count token)
    ∧ attributes cell !! "cell_metadata" = Some (VDict (meta_metadata token))
    ∧ attributes cell !! "classes"
      = Some (VList (List.map VStr ("cell" :: List.map tag_class names))).
Proof.
  intros Hinput Houtput Hboth Htags Hrender.
  destruct (render_nb_cell_code_kept self token input_removed output_removed
              ns Hinput Houtput Hboth Hrender)
    as (tags' & classes & inputs & has_outputs & outputs & Hiter & Hclasses
        & -> & _).
  rewrite Htags in Hiter. injection Hiter as <-.
  apply tag_classes_inr in Hclasses as (names & -> & ->).
  eexists _, names. split; [reflexivity |]. split; [reflexivity |].
  cbn [tagname line source attributes].
  change (tag_class <$> names) with (List.map tag_class names).
  repeat split; by simplify_map_eq.
Qed.

(** X8. The container of such a cell holds, in this order, a container with
    the rendered source unless the source is removed, and a container with
    the rendered outputs unless the outputs are removed or the cell has
    none. *)
Theorem cell_container_children `{!NbElementRenderer} `{!HostRenderer}
    (self : DocutilsNbRenderer) (token : Token) input_removed output_removed
    ns :
  remove_input self (meta_metadata token) = inr input_removed →
  remove_output self (meta_metadata token) = inr output_removed →
  input_removed && output_removed = false →
  render_nb_cell_code self token = inr (tt, ns) →
  ∃ cell inputs has_outputs outputs,
    ns = [cell]
    ∧ children cell = inputs ++ outputs
    ∧ (if input_removed then inputs = []
       else ∃ cell_input,
              inputs = [cell_input]
              ∧ attributes cell_input !! "nb_element"
                = Some (VStr "cell_code_source")
              ∧ attributes cell_input !! "classes"
                = Some (VList [VStr "cell_input"])
              ∧ render_nb_cell_code_source self token
                = inr (tt, children cell_input))
    ∧ cell_outputs self (meta_index token) = inr has_outputs
    ∧ (if negb output_removed && truthy has_outputs then
         ∃ cell_output,
           outputs = [cell_output]
           ∧ attributes cell_output !! "nb_element"
             = Some (VStr "cell_code_output")
           ∧ attributes cell_output !! "classes"
             = Some (VList [VStr "cell_output"])
           ∧ render_nb_cell_code_outputs self token
             = inr (tt, children cell_output)
       else outputs = []).
Proof.
  intros Hinput Houtput Hboth Hrender.
  destruct (render_nb_cell_code_kept self token input_removed output_removed
              ns Hinput Houtput Hboth Hrender)
    as (tags & classes & inputs & has_outputs & outputs & _ & _ & -> & Hinputs
        & Hhas & Houtputs).
  eexists _, inputs, has_outputs, outputs.
  split; [reflexivity |]. split; [reflexivity |].
  split; [| split; [exact Hhas |]].
  - destruct input_removed; [exact Hinputs |].
    destruct Hinputs as (block & Hblock & ->).
    eexists. split; [reflexivity |]. by simplify_map_eq.
  - destruct (negb output_removed && truthy has_outputs); [| exact Houtputs].
    destruct Houtputs as (rendered & Hrendered & ->).
    eexists. split; [reflexivity |]. by simplify_map_eq.
Qed.

(** X10. A cell token whose index is not an index of the notebook: the
    outputs cannot be rendered, and the cell is only rendered when its
    source and its outputs are both removed, to nothing. *)
Theorem cell_index_out_of_range `{!NbElementRenderer} `{!HostRenderer}
    (self : DocutilsNbRenderer) (token : Token) :
  notebook_cells self !! meta_index token = None →
  render_nb_cell_code_outputs self token = inl IndexError
  ∧ (∀ ns,
       render_nb_cell_code self token = inr (tt, ns) →
       remove_input self (meta_metadata token) = inr true
       ∧ remove_output self (meta_metadata token) = inr true
       ∧ ns = []).
Proof.
  intros Hrange.
  assert (cell_outputs self (meta_index token) = inl IndexError) as Houtputs
    by (unfold cell_outputs; by rewrite Hrange).
  split; [unfold render_nb_cell_code_outputs; by rewrite Houtputs |].
  intros ns Hrender.
  destruct (render_nb_cell_code_inr self token ns Hrender)
    as (input_removed & output_removed & Hinput & Houtput & Hns).
  destruct (input_removed && output_removed) eqn:Hboth.
  - apply andb_true_iff in Hboth as [-> ->]. done.
  - destruct (render_nb_cell_code_kept self token input_removed
                output_removed ns Hinput Houtput Hboth Hrender)
      as (_ & _ & _ & has_outputs & _ & _ & _ & _ & _ & Hhas & _).
    rewrite Houtputs in Hhas. discriminate.
Qed.

Lemma cell_container_attributes_witness :
  ∃ cell,
    appended (render_nb_cell_code (example_renderer example_notebook)
                (code_token 2 tagged_metadata "display(x)")) = [cell]
    ∧ attributes cell !! "classes"
      = Some (VList [VStr "cell"; VStr "tag_hide_input"]).
Proof.
  destruct (cell_container_attributes (example_renderer example_notebook)
              (code_token 2 tagged_metadata "display(x)") false false
              [VStr "hide input"]
              (appended (render_nb_cell_code (example_renderer example_notebook)
                           (code_token 2 tagged_metadata "display(x)")))
              eq_refl eq_refl eq_refl eq_refl eq_refl)
    as (cell & names & Hns & Hnames & _ & _ & _ & _ & _ & _ & _ & Hclasses).
  exists cell. split; [exact Hns |].
  destruct names as [| name [| ? ?]]; try discriminate Hnames.
  injection Hnames as <-. exact Hclasses.
Defined.

Lemma cell_container_children_witness :
  ∃ cell cell_output,
    appended (render_nb_cell_code (example_renderer example_notebook)
                (code_token 0 input_removed_metadata "6*7")) = [cell]
    ∧ children cell = [cell_output]
    ∧ appended_tags (inr (tt, children cell_output)) = inr ["mime"].
Proof.
  destruct (cell_container_children (example_renderer example_notebook)
              (code_token 0 input_removed_metadata "6*7") true false
              (appended (render_nb_cell_code (example_renderer example_notebook)
                           (code_token 0 input_removed_metadata "6*7")))
              eq_refl eq_refl eq_refl eq_refl)
    as (cell & inputs & has_outputs & outputs & Hns & Hchildren & -> & Hhas
        & Houtputs).
  vm_compute in Hhas. injection Hhas as <-.
  destruct Houtputs as (cell_output & -> & _ & _ & Hrendered).
  exists cell, cell_output. split; [exact Hns |]. split; [exact Hchildren |].
  rewrite <- Hrendered. reflexivity.
Defined.

Lemma cell_index_out_of_range_witness :
  render_nb_cell_code_outputs (example_renderer example_notebook)
    (code_token 5 ∅ "6*7") = inl IndexError.
Proof.
  apply (cell_index_out_of_range (example_renderer example_notebook)
           (code_token 5 ∅ "6*7")).
  reflexivity.
Defined.

(** X11. A code cell is rendered, to one container, when its two flags
    resolve and are not both true, its tags are strings, its index is an
    index of the notebook, the option that numbers the source lines
    resolves unless the source is removed, and its outputs are rendered
    unless they are removed or the cell has none. *)
Theorem code_cell_rendered `{!NbElementRenderer} `{!HostRenderer}
    (self : DocutilsNbRenderer) (token : Token) input_removed output_removed
    (names : list string) (cell : pydict) :
  remove_input self (meta_metadata token) = inr input_removed →
  remove_output self (meta_metadata token) = inr output_removed →
  input_removed && output_removed = false →
  cell_tags (meta_metadata token) = VList (VStr <$> names) →
  (input_removed = false →
   ∃ number_lines,
     get_cell_render_config (nb_config self) (meta_metadata token)
       "number_source_lines" None true = inr number_lines) →
  notebook_cells self !! meta_index token = Some cell →
  (output_removed = false →
   truthy (dict_get cell "outputs" (VList [])) = true →
   ∃ rendered, render_nb_cell_code_outputs self token = inr (tt, rendered)) →
  ∃ cell_node,
    render_nb_cell_code self token = inr (tt, [cell_node])
    ∧ tagname cell_node = "container".
Proof.
  intros Hinput Houtput Hboth Htags Hnumber Hcell Hrendered.
  unfold render_nb_cell_code.
  rewrite Hinput, bind_lift_inr, Houtput, bind_lift_inr, Hboth, Htags.
  cbn [py_iter]. rewrite bind_lift_inr.
  rewrite tag_classes_fmap, bind_lift_inr.
  assert (cell_outputs self (meta_index token)
          = inr (dict_get cell "outputs" (VList []))) as Hhas
    by (unfold cell_outputs; by rewrite Hcell).
  assert (∃ inputs,
            (if negb input_removed then
               current_node_context
                 (add_line_and_source_path self
                    (container (<["nb_element" := VStr "cell_code_source"]> ∅)
                       ["cell_input"]) token)
                 (render_nb_cell_code_source self token)
             else ret tt) = inr (tt, inputs)) as [inputs ->].
  { destruct input_removed; [by eexists |].
    destruct (Hnumber eq_refl) as [number_lines Hlines].
    unfold render_nb_cell_code_source. rewrite Hlines, bind_lift_inr.
    by eexists. }
  cbn [bind]. rewrite Hhas, bind_lift_inr.
  destruct output_removed; simpl negb; cbn [andb]; [by eexists |].
  destruct (truthy (dict_get cell "outputs" (VList []))) eqn:Htruthy;
    [| by eexists].
  destruct (Hrendered eq_refl eq_refl) as [rendered ->]. by eexists.
Qed.

Lemma code_cell_rendered_witness :
  ∃ cell_node,
    render_nb_cell_code (example_renderer example_notebook)
      (code_token 2 tagged_metadata "display(x)") = inr (tt, [cell_node])
    ∧ tagname cell_node = "container".
Proof.
  apply (code_cell_rendered (example_renderer example_notebook)
           (code_token 2 tagged_metadata "display(x)") false false
           ["hide input"] latex_cell);
    try reflexivity.
  - intros _. eexists. reflexivity.
  - intros _ _. eexists. vm_compute. reflexivity.
Defined.

(** ** Malformed outputs *)

(** The first iteration that raises ends the loop with its exception. *)
Lemma for_enumerate_inl {A} (body : nat → A → M unit) before x after i ns e :
  for_enumerate body i before = inr (tt, ns) →
  body (i + length before) x = inl e →
  for_enumerate body i (before ++ x :: after) = inl e.
Proof.
  intros Hbefore Hx. rewrite for_enumerate_app, Hbefore.
  change (for_enumerate body (i + length before) (x :: after))
    with (bind (body (i + length before) x)
            (fun _ => for_enumerate body (S (i + length before)) after)).
  by rewrite Hx.
Qed.

(** X12. An output that lacks what its rendering reads makes the rendering
    raise: an output that is no mapping or has no [output_type], and a
    stream without [name], raise [AttributeError]; a display output without
    [data] raises [KeyError] when the priority list has an entry, and is
    rendered to the warning of a bundle without a renderable MIME type when
    the priority list is empty. *)
Theorem malformed_output_raises `{!NbElementRenderer} `{!HostRenderer}
    (self : DocutilsNbRenderer) (token : Token) (output_index : nat) :
  (∀ output, (∀ d, output ≠ VDict d) →
     render_output self token output_index output
     = inl (AttributeError "output_type"))
  ∧ (∀ output : pydict, output !! "output_type" = None →
       render_output self token output_index (VDict output)
       = inl (AttributeError "output_type"))
  ∧ (∀ output : pydict,
       output !! "output_type" = Some (VStr "stream") →
       output !! "name" = None →
       render_output self token output_index (VDict output)
       = inl (AttributeError "name"))
  ∧ (∀ output : pydict,
       is_display output → output !! "data" = None →
       mime_priority self ≠ [] →
       render_output self token output_index (VDict output)
       = inl (KeyError "data"))
  ∧ (∀ output : pydict,
       is_display output → mime_priority self = [] →
       render_output self token output_index (VDict output)
       = inr (tt, [mime_type_warning token])).
Proof.
  repeat split.
  - intros output Hdict. destruct output as [| | | | | d]; try reflexivity.
    by destruct (Hdict d).
  - intros output Htype. unfold render_output, node_getattr.
    by rewrite Htype.
  - intros output Htype Hname. unfold render_output, node_getattr.
    rewrite Htype, bind_lift_inr. simpl. by rewrite Hname.
  - intros output Hdisplay Hdata Hpriority.
    unfold render_output, node_getattr.
    destruct (mime_priority self) as [| x rest] eqn:Hlist; [done |].
    destruct Hdisplay as [-> | ->]; rewrite bind_lift_inr; simpl;
      unfold dict_getitem; by rewrite Hdata.
  - intros output Hdisplay Hpriority.
    apply render_output_not_selected; [done |]. by rewrite Hpriority.
Qed.

Lemma malformed_output_raises_witness :
  render_output (example_renderer []) (code_token 0 ∅ "display(x)") 1
    (VDict bare_display_output) = inl (KeyError "data")
  ∧ appended_tags
      (render_output unprioritised_renderer (code_token 0 ∅ "display(x)") 1
         (VDict bare_display_output)) = inr ["system_message"].
Proof.
  split.
  - destruct (malformed_output_raises (example_renderer [])
                (code_token 0 ∅ "display(x)") 1)
      as (_ & _ & _ & Hdata & _).
    apply Hdata; [left; reflexivity | reflexivity | discriminate].
  - destruct (malformed_output_raises unprioritised_renderer
                (code_token 0 ∅ "display(x)") 1)
      as (_ & _ & _ & _ & Hempty).
    rewrite Hempty; [reflexivity | left; reflexivity | reflexivity].
Defined.



(** ** The index of an output *)

(** A bundle that shares an entry with the priority list has a selected
    MIME type, which is one of its keys. *)
Lemma next_mime_type_shared (output d : pydict) priority :
  output !! "data" = Some (VDict d) →
  (∃ x, x ∈ priority ∧ is_Some (d !! x)) →
  ∃ mime_type payload,
    next_mime_type output priority = inr (Some mime_type)
    ∧ d !! mime_type = Some payload.
Proof.
  intros Hdata (x & Hx & Hdx). rewrite (next_mime_type_find _ _ _ Hdata).
  destruct (list_find (fun x => is_Some (d !! x)) priority)
    as [[i mime_type] |] eqn:Hfind.
  - apply list_find_Some in Hfind as (_ & [payload Hpayload] & _).
    by exists mime_type, payload.
  - apply list_find_None in Hfind. rewrite Forall_forall in Hfind.
    by destruct (Hfind x Hx).
Qed.

(** X15. In a cell that is rendered and has no figure options, the nodes of
    a display output whose bundle shares an entry with the priority list
    are the nodes that the element renderer returns for the selected type
    and its payload, for the index of the cell and for the position of the
    output among the outputs of the cell; they stand in the nodes of the
    cell after the nodes of the outputs before it and before the nodes of
    the outputs after it. *)
Theorem display_output_index `{!NbElementRenderer} `{!HostRenderer}
    (self : DocutilsNbRenderer) (token : Token) (cell : pydict)
    (outputs : list pyval) (k : nat) (output d : pydict) ns :
  notebook_cells self !! meta_index token = Some cell →
  cell !! "outputs" = Some (VList outputs) →
  outputs !! k = Some (VDict output) →
  is_display output →
  output !! "data" = Some (VDict d) →
  (∃ x, x ∈ mime_priority self ∧ is_Some (d !! x)) →
  (∀ sub, meta_metadata token !! cell_render_key (nb_config self)
          = Some (VDict sub) → sub !! "figure" = None) →
  render_nb_cell_code_outputs self token = inr (tt, ns) →
  ∃ mime_type payload before after,
    next_mime_type output (mime_priority self) = inr (Some mime_type)
    ∧ d !! mime_type = Some payload
    ∧ for_enumerate (render_output self token) 0 (take k outputs)
      = inr (tt, before)
    ∧ for_enumerate (render_output self token) (S k) (drop (S k) outputs)
      = inr (tt, after)
    ∧ ns = before
           ++ add_line_and_source_path_r self
                (render_mime_type
                   {| MimeData.mime_type := mime_type;
                      MimeData.content := payload;
                      MimeData.cell_metadata := meta_metadata token;
                      MimeData.output_metadata :=
                        dict_get output "metadata" (VDict ∅);
                      MimeData.cell_index := meta_index token;
                      MimeData.output_index := k;
                      MimeData.line := token_line token |}) token
           ++ after.
Proof.
  intros Hcell Houtputs Hk Hdisplay Hdata Hshared Hfigure Hrender.
  destruct (next_mime_type_shared output d (mime_priority self) Hdata Hshared)
    as (mime_type & payload & Hselected & Hpayload).
  exists mime_type, payload.
  rewrite (render_nb_cell_code_outputs_loop self token cell outputs)
    in Hrender by done.
  rewrite <- (take_drop_middle outputs k (VDict output) Hk) in Hrender.
  rewrite for_enumerate_app in Hrender.
  apply bind_inr_inv in Hrender as ([] & before & rest & Hbefore & Hrest & ->).
  change (for_enumerate (render_output self token)
            (0 + length (take k outputs))
            (VDict output :: drop (S k) outputs))
    with (bind (render_output self token (0 + length (take k outputs))
                  (VDict output))
            (fun _ => for_enumerate (render_output self token)
                        (S (0 + length (take k outputs)))
                        (drop (S k) outputs))) in Hrest.
  apply bind_inr_inv in Hrest as ([] & mine & after & Hmine & Hafter & ->).
  assert (0 + length (take k outputs) = k) as Hlen.
  { rewrite length_take. apply lookup_lt_Some in Hk. lia. }
  rewrite Hlen in Hmine, Hafter.
  exists before, after. repeat split; try done.
  rewrite (render_output_selected self token output d k mime_type payload)
    in Hmine by done.
  rewrite (get_cell_render_config_notebook _ _ _ _ _ Hfigure) in Hmine.
  simpl in Hmine. by injection Hmine as <-.
Qed.

Lemma display_output_index_witness :
  ∃ before after,
    appended (render_nb_cell_code_outputs (example_renderer [update_cell])
                (code_token 0 ∅ "h.update(x)"))
    = before
      ++ add_line_and_source_path_r (example_renderer [update_cell])
           (render_mime_type
              {| MimeData.mime_type := "image/png";
                 MimeData.content := VStr "iVBORw0KGgo=";
                 MimeData.cell_metadata := ∅;
                 MimeData.output_metadata := VDict ∅;
                 MimeData.cell_index := 0;
                 MimeData.output_index := 1;
                 MimeData.line := 7 |}) (code_token 0 ∅ "h.update(x)")
      ++ after.
Proof.
  assert (is_display (bundle_output "execute_result" png_bundle)) as Hdisplay
    by (right; reflexivity).
  assert (∃ x, x ∈ mime_priority (example_renderer [update_cell])
               ∧ is_Some (png_bundle !! x)) as Hshared.
  { exists "image/png". split; [| by eexists].
    apply list_elem_of_In. simpl. tauto. }
  assert (∀ sub : pydict,
            meta_metadata (code_token 0 ∅ "h.update(x)")
            !! cell_render_key (nb_config (example_renderer [update_cell]))
            = Some (VDict sub) → sub !! "figure" = None) as Hfigure
    by (intros sub; discriminate).
  assert (render_nb_cell_code_outputs (example_renderer [update_cell])
            (code_token 0 ∅ "h.update(x)")
          = inr (tt, appended (render_nb_cell_code_outputs
                                 (example_renderer [update_cell])
                                 (code_token 0 ∅ "h.update(x)"))))
    as Hrender by reflexivity.
  destruct (display_output_index (example_renderer [update_cell])
              (code_token 0 ∅ "h.update(x)") update_cell
              [VDict update_output;
               VDict (bundle_output "execute_result" png_bundle)] 1
              (bundle_output "execute_result" png_bundle) png_bundle
              (appended (render_nb_cell_code_outputs
                           (example_renderer [update_cell])
                           (code_token 0 ∅ "h.update(x)")))
              eq_refl eq_refl eq_refl Hdisplay eq_refl Hshared Hfigure
              Hrender)
    as (mime_type & payload & before & after & Hselected & Hpayload & _ & _
        & Hns).
  assert (mime_type = "image/png") as ->.
  { assert (next_mime_type (bundle_output "execute_result" png_bundle)
              example_priority = inr (Some "image/png")) as Hpng
      by reflexivity.
    unfold example_renderer, mime_priority in Hselected. congruence. }
  assert (payload = VStr "iVBORw0KGgo=") as ->.
  { assert (png_bundle !! "image/png" = Some (VStr "iVBORw0KGgo=")) as Hpng
      by reflexivity.
    congruence. }
  exists before, after. exact Hns.
Defined.

(** ** The cells of [NotebookParser.parse] *)


Section ParseProperties.
Context `{!HostRenderer}.

(** The body of the cell loop for a cell with a source that is not empty,
    with metadata and with tags that can be iterated: what is left is the
    choice on the type of the cell. *)
Lemma parse_cell_nonempty (cell metadata : pydict) source n tags cell_type :
  cell !! "source" = Some source → py_len source = inr (S n) →
  cell !! "metadata" = Some (VDict metadata) →
  py_iter (dict_get metadata "tags" (VList [])) = inr tags →
  cell !! "cell_type" = Some cell_type →
  parse_cell cell
  = if eq_str cell_type "markdown" then
      match source with
      | VStr source =>
          hide_input <- lift (str_in "hide_input"
                                (dict_get metadata "tags" (VList []))) ;;
          if (hide_input : bool) then
            current_node_context (container ∅ ["toggle"])
              (for_each render
                 (tokenize (if endswith_newline source then source
                            else source +:+ String "010" EmptyString)))
          else
            for_each render
              (tokenize (if endswith_newline source then source
                         else source +:+ String "010" EmptyString))
      | _ => inl (AttributeError "endswith")
      end
    else if eq_str cell_type "code" then
      outputs <- lift (dict_getitem cell "outputs") ;;
      append
        (Node "CellNode"
           (<["classes" :=
                VList (List.map VStr
                         ("cell" :: List.map (fun tag =>
                                                "tag_" +:+ format_value tag)
                                      tags))]>
             (<["cell_type" := cell_type]> ∅)) None None
           [Node "CellInputNode"
              (<["classes" := VList [VStr "cell_input"]]> ∅) None None
              [Node "literal_block" (<["text" := source]> ∅) None None []];
            Node "CellOutputNode"
              (<["classes" := VList [VStr "cell_output"]]> ∅) None None
              [Node "CellOutputBundleNode" (<["outputs" := outputs]> ∅)
                 None None []]])
    else ret tt.
Proof.
  intros Hsource Hlen Hmetadata Htags Htype.
  unfold parse_cell, metadata_tags, dict_getitem, node_getattr.
  rewrite Hsource, bind_lift_inr, Hlen, bind_lift_inr. cbn [Nat.eqb].
  rewrite Hmetadata. cbn [rbind]. rewrite bind_lift_inr, Htags, bind_lift_inr.
  rewrite Htype, bind_lift_inr.
  destruct (eq_str cell_type "markdown"); [| reflexivity].
  destruct source; try reflexivity. by rewrite bind_lift_inr.
Qed.

End ParseProperties.

(** X16. A cell that is neither a markdown cell nor a code cell is dropped:
    with a source that is not empty, metadata and tags that can be
    iterated, the cell loop renders it to nothing and does not raise. *)
Theorem other_cells_dropped `{!HostRenderer} (cell metadata : pydict)
    source n tags cell_type :
  cell !! "source" = Some source → py_len source = inr (S n) →
  cell !! "metadata" = Some (VDict metadata) →
  py_iter (dict_get metadata "tags" (VList [])) = inr tags →
  cell !! "cell_type" = Some cell_type →
  cell_type ≠ VStr "markdown" → cell_type ≠ VStr "code" →
  parse_cell cell = inr (tt, []).
Proof.
  intros Hsource Hlen Hmetadata Htags Htype Hmarkdown%eq_str_false
    Hcode%eq_str_false.
  rewrite (parse_cell_nonempty cell metadata source n tags cell_type)
    by done.
  by rewrite Hmarkdown, Hcode.
Qed.

Lemma other_cells_dropped_witness : parse_cell raw_cell = inr (tt, []).
Proof.
  apply (other_cells_dropped raw_cell ∅ (VStr "<hr>") 3 [] (VStr "raw"));
    (reflexivity || discriminate).
Defined.



(** X18. A code cell whose source is not empty and whose tags are strings
    is rendered to one cell node, whose classes are [cell] followed by
    [tag_] and the tag for each tag as it is written, spaces included; the
    node holds an input node with the source as a literal block and an
    output node with one bundle node, to which the outputs of the cell are
    attached as they are, not rendered. *)
Theorem code_cell_node `{!HostRenderer} (cell metadata : pydict) source n
    (names : list string) outputs :
  cell !! "cell_type" = Some (VStr "code") →
  cell !! "source" = Some source → py_len source = inr (S n) →
  cell !! "metadata" = Some (VDict metadata) →
  dict_get metadata "tags" (VList []) = VList (VStr <$> names) →
  cell !! "outputs" = Some outputs →
  parse_cell cell
  = inr (tt,
         [Node "CellNode"
            (<["classes" :=
                 VList (List.map VStr
                          ("cell" :: List.map (fun name => "tag_" +:+ name)
                                       names))]>
              (<["cell_type" := VStr "code"]> ∅)) None None
            [Node "CellInputNode"
               (<["classes" := VList [VStr "cell_input"]]> ∅) None None
               [Node "literal_block" (<["text" := source]> ∅) None None []];
             Node "CellOutputNode"
               (<["classes" := VList [VStr "cell_output"]]> ∅) None None
               [Node "CellOutputBundleNode" (<["outputs" := outputs]> ∅)
                  None None []]]]).
Proof.
  intros Htype Hsource Hlen Hmetadata Htags Houtputs.
  assert (py_iter (dict_get metadata "tags" (VList []))
          = inr (VStr <$> names)) as Hiter
    by (by rewrite Htags).
  rewrite (parse_cell_nonempty cell metadata source n (VStr <$> names)
             (VStr "code") Hsource Hlen Hmetadata Hiter Htype).
  assert (List.map (fun tag => "tag_" +:+ format_value tag) (VStr <$> names)
          = List.map (fun name => "tag_" +:+ name) names) as ->.
  { clear. induction names as [| name names IH]; [reflexivity |].
    simpl. by rewrite <- IH. }
  cbn [eq_str String.eqb Ascii.eqb Bool.eqb]. unfold dict_getitem.
  by rewrite Houtputs, bind_lift_inr.
Qed.

Lemma code_cell_node_witness :
  appended_tags (parse_cell (code_cell "6*7" tagged_metadata [VInt 42]))
  = inr ["CellNode"].
Proof.
  rewrite (code_cell_node (code_cell "6*7" tagged_metadata [VInt 42])
             tagged_metadata (VStr "6*7") 2 ["hide input"]
             (VList [VInt 42]));
    reflexivity.
Defined.

(** X19. A cell without source raises [KeyError], and a cell with a source
    that is not empty and without metadata raises [AttributeError]; a cell
    that raises ends the loop over the cells with its exception when the
    cells before it are rendered, so that no cell after it is rendered. *)
Theorem malformed_cell_aborts_notebook `{!HostRenderer} (cell : pydict) :
  (cell !! "source" = None → parse_cell cell = inl (KeyError "source"))
  ∧ (∀ source n,
       cell !! "source" = Some source → py_len source = inr (S n) →
       cell !! "metadata" = None →
       parse_cell cell = inl (AttributeError "metadata"))
  ∧ (∀ before after ns e,
       parse_cells before = inr (tt, ns) →
       parse_cell cell = inl e →
       parse_cells (before ++ cell :: after) = inl e).
Proof.
  repeat split.
  - intros Hsource. unfold parse_cell, dict_getitem. by rewrite Hsource.
  - intros source n Hsource Hlen Hmetadata.
    unfold parse_cell, metadata_tags, dict_getitem, node_getattr.
    rewrite Hsource, bind_lift_inr, Hlen, bind_lift_inr. cbn [Nat.eqb].
    by rewrite Hmetadata.
  - intros before after ns e Hbefore Hcell.
    by apply (for_enumerate_inl (fun _ => parse_cell) before cell after 0 ns).
Qed.

Lemma malformed_cell_aborts_notebook_witness :
  parse_cells [result_cell; sourceless_cell; latex_cell]
  = inl (KeyError "source").
Proof.
  destruct (malformed_cell_aborts_notebook sourceless_cell)
    as (Hsource & _ & Habort).
  apply (Habort [result_cell] [latex_cell]
           (appended (parse_cells [result_cell]))).
  - reflexivity.
  - apply Hsource. reflexivity.
Defined.

(** ** Cells without outputs *)

(** X20. A cell of the notebook that has no [outputs], or an empty list of
    them, has no outputs to render: [render_nb_cell_code_outputs] returns
    without a node, and the container of the cell, when the cell is
    rendered, holds no output container, whether the outputs are removed or
    not. *)
Theorem no_outputs_no_output_container `{!NbElementRenderer} `{!HostRenderer}
    (self : DocutilsNbRenderer) (token : Token) (cell : pydict) :
  notebook_cells self !! meta_index token = Some cell →
  cell !! "outputs" = None ∨ cell !! "outputs" = Some (VList []) →
  render_nb_cell_code_outputs self token = inr (tt, [])
  ∧ (∀ input_removed output_removed ns,
       remove_input self (meta_metadata token) = inr input_removed →
       remove_output self (meta_metadata token) = inr output_removed →
       input_removed && output_removed = false →
       render_nb_cell_code self token = inr (tt, ns) →
       ∃ cell_node,
         ns = [cell_node]
         ∧ if input_removed then children cell_node = []
           else ∃ cell_input,
                  children cell_node = [cell_input]
                  ∧ attributes cell_input !! "nb_element"
                    = Some (VStr "cell_code_source")).
Proof.
  intros Hcell Houtputs.
  assert (cell_outputs self (meta_index token) = inr (VList [])) as Hhas.
  { unfold cell_outputs, dict_get. rewrite Hcell.
    by destruct Houtputs as [-> | ->]. }
  split.
  - unfold render_nb_cell_code_outputs. by rewrite Hhas.
  - intros input_removed output_removed ns Hinput Houtput Hboth Hrender.
    destruct (render_nb_cell_code_kept self token input_removed
                output_removed ns Hinput Houtput Hboth Hrender)
      as (tags & classes & inputs & has_outputs & outputs & _ & _ & -> & Hinputs
          & Hhas' & Hnone).
    rewrite Hhas in Hhas'. injection Hhas' as <-.
    rewrite andb_false_r in Hnone. subst outputs.
    eexists. split; [reflexivity |]. cbn [children]. rewrite app_nil_r.
    destruct input_removed; [exact Hinputs |].
    destruct Hinputs as (block & _ & ->).
    eexists. split; [reflexivity |]. by simplify_map_eq.
Qed.

Lemma no_outputs_no_output_container_witness :
  render_nb_cell_code_outputs (example_renderer [outputless_cell])
    (code_token 0 ∅ "x = 1") = inr (tt, [])
  ∧ ∃ cell_node cell_input,
      appended (render_nb_cell_code (example_renderer [outputless_cell])
                  (code_token 0 ∅ "x = 1")) = [cell_node]
      ∧ children cell_node = [cell_input].
Proof.
  destruct (no_outputs_no_output_container (example_renderer [outputless_cell])
              (code_token 0 ∅ "x = 1") outputless_cell)
    as [Hnothing Hcell]; [reflexivity | left; reflexivity |].
  split; [exact Hnothing |].
  assert (render_nb_cell_code (example_renderer [outputless_cell])
            (code_token 0 ∅ "x = 1")
          = inr (tt, appended (render_nb_cell_code
                                 (example_renderer [outputless_cell])
                                 (code_token 0 ∅ "x = 1")))) as Hrender
    by reflexivity.
  destruct (Hcell false false _ eq_refl eq_refl eq_refl Hrender)
    as (cell_node & Hns & cell_input & Hchildren & _).
  by exists cell_node, cell_input.
Defined.
